(** * pacman_x16: the AI development tool (tools/ai_dev_tool.py)

    A shallow embedding of [X16DevTool]: [build_project],
    [run_emulator_with_capture], [capture_screenshot] and
    [analyze_session], together with the clean-up discipline of
    [X16DevLoop.run_loop] (tools/development_loop.py).

    The Python code talks to the outside world (make, x16emu, screencapture,
    pkill, the file system, the clock).  Every such call is modelled as a
    read of an oracle record that fixes, per call site, whether the call
    returns (and what) or raises (and which class of exception).  The code
    itself is a program in a small state-and-exception monad: the state is
    the dictionary the Python function mutates ([session_data],
    [build_log]) together with the trace of external calls performed so
    far.  As in Python, mutations made before an exception is raised stay
    visible to the handler. *)

From Stdlib Require Import ZArith List String Ascii Bool Lia Sorted.
From Stdlib Require Import DecimalString.
Import ListNotations.

Local Open Scope string_scope.
Local Open Scope Z_scope.

(** ** Python exceptions and call outcomes *)

(** The three classes the handlers of the source distinguish:
    [except subprocess.TimeoutExpired], [except Exception] and the bare
    [except:].  [KeyboardInterrupt] and [SystemExit] derive from
    [BaseException] only. *)
Inductive exn : Type :=
| TimeoutExpired (msg : string)
| OtherException (msg : string)
| KeyboardInterrupt
| SystemExit.

(** [isinstance(e, Exception)] *)
Definition is_Exception (e : exn) : bool :=
  match e with
  | KeyboardInterrupt | SystemExit => false
  | _ => true
  end.

(** [isinstance(e, KeyboardInterrupt)] *)
Definition is_KeyboardInterrupt (e : exn) : bool :=
  match e with
  | KeyboardInterrupt => true
  | _ => false
  end.

(** [isinstance(e, subprocess.TimeoutExpired)] *)
Definition is_TimeoutExpired (e : exn) : bool :=
  match e with
  | TimeoutExpired _ => true
  | _ => false
  end.

(** [str(e)] *)
Definition str_of_exn (e : exn) : string :=
  match e with
  | TimeoutExpired msg => msg
  | OtherException msg => msg
  | KeyboardInterrupt => ""
  | SystemExit => "0"
  end.

Inductive outcome (A : Type) : Type :=
| Returns (a : A)
| Raises (e : exn).
Arguments Returns {A} a.
Arguments Raises {A} e.

(** [str(n)] for a non-negative integer. *)
Definition str_of_nat (n : nat) : string :=
  NilEmpty.string_of_uint (Nat.to_uint n).

(** [Path / name] *)
Definition path_join (dir name : string) : string := dir ++ "/" ++ name.

(** ** Records of the tool *)

Inductive Status : Type :=
| unknown
| program_not_found
| emulator_exited_early
| completed
| force_killed
| error.

Definition Status_eqb (a b : Status) : bool :=
  match a, b with
  | unknown, unknown
  | program_not_found, program_not_found
  | emulator_exited_early, emulator_exited_early
  | completed, completed
  | force_killed, force_killed
  | error, error => true
  | _, _ => false
  end.

(** One entry of [session_data["screenshots"]]. *)
Record Capture : Type := mkCapture {
  time : Z;
  file : string;
  step : nat
}.

(** The [session_data] dictionary.  The key ["error"] exists only after the
    outer handler ran, hence the option. *)
Record Session : Type := mkSession {
  session_id : string;
  timestamp : string;
  program : string;
  duration : Z;
  screenshots : list Capture;
  gif_recording : option string;
  emulator_output : string;
  emulator_stderr : string;
  status : Status;
  program_exists : bool;
  emulator_pid : option Z;
  error_msg : option string
}.

(** The [build_log] dictionary; ["return_code"] is set only when make ran
    to completion. *)
Record BuildLog : Type := mkBuildLog {
  bl_timestamp : string;
  bl_command : string;
  bl_success : bool;
  bl_output : string;
  bl_errors : string;
  bl_return_code : option Z
}.

(** The [analysis] dictionary. *)
Record Analysis : Type := mkAnalysis {
  an_session_id : string;
  an_timestamp : string;
  an_program_status : string;
  an_screenshots_captured : nat;
  an_issues_detected : list string;
  an_recommendations : list string
}.

(** What [json.dump] is given. *)
Inductive artifact : Type :=
| ABuild (b : BuildLog)
| ASession (s : Session)
| AAnalysis (a : Analysis).

(** [self] of [X16DevTool]. *)
Record X16DevTool : Type := mkTool {
  project_dir : string;
  screenshots_dir : string;
  logs_dir : string;
  tool_session_id : string
}.

(** ** External calls *)

Inductive event : Type :=
| EvMake (game : string)
| EvExists (path : string)
| EvPopen (cmd : list string)
| EvSleep (secs : Z)
| EvPoll
| EvCommunicate (timeout : option Z)
| EvActivate
| EvScreencapture (path : string)
| EvPkill
| EvAnnounceGif (path : string)
| EvWrite (path : string) (content : artifact)
| EvWriteFailed (path : string)
| EvMakeClean
| EvMakeAll
| EvKillall
| EvTerminate
| EvWait (timeout : Z)
| EvListdir (path : string)
| EvRename (src dst : string)
| EvAppend (path : string) (lines : list string).

(** ** The monad: a mutable dictionary [D], a trace, and exceptions *)

Record St (D : Type) : Type := mkSt {
  data : D;
  trace : list event
}.
Arguments mkSt {D} data trace.
Arguments data {D} s.
Arguments trace {D} s.

Definition M (D A : Type) : Type := St D -> outcome A * St D.

Definition ret {D A} (a : A) : M D A := fun s => (Returns a, s).

Definition bind {D A B} (m : M D A) (k : A -> M D B) : M D B :=
  fun s =>
    match m s with
    | (Returns a, s') => k a s'
    | (Raises e, s') => (Raises e, s')
    end.

Declare Scope py_scope.
Delimit Scope py_scope with py.
Notation "x <- m ;; k" := (bind m (fun x => k))
  (at level 100, m at next level, right associativity) : py_scope.
Notation "m ;; k" := (bind m (fun _ => k))
  (at level 100, right associativity) : py_scope.
Local Open Scope py_scope.

Definition raise {D A} (e : exn) : M D A := fun s => (Raises e, s).

Definition get {D} : M D D := fun s => (Returns (data s), s).

Definition modify {D} (f : D -> D) : M D unit :=
  fun s => (Returns tt, mkSt (f (data s)) (trace s)).

Definition emit {D} (ev : event) : M D unit :=
  fun s => (Returns tt, mkSt (data s) (trace s ++ [ev])).

Definition lift {D A} (o : outcome A) : M D A := fun s => (o, s).

(** An external call: it is attempted (and traced) and then returns or
    raises as the oracle says. *)
Definition call {D A} (ev : event) (o : outcome A) : M D A :=
  emit ev ;; lift o.

(** [try: body except C1: h1 except C2: h2 ...]: the first clause whose
    class test accepts the exception runs; an exception raised by a handler
    is not offered to the later clauses.  The handler sees the state the
    body left behind. *)
Definition clause (D A : Type) : Type := ((exn -> bool) * (exn -> M D A))%type.

Fixpoint dispatch {D A} (e : exn) (clauses : list (clause D A)) : M D A :=
  match clauses with
  | [] => raise e
  | (catches, handler) :: rest =>
      if catches e then handler e else dispatch e rest
  end.

Definition try_except {D A} (body : M D A) (clauses : list (clause D A))
  : M D A :=
  fun s =>
    match body s with
    | (Returns a, s') => (Returns a, s')
    | (Raises e, s') => dispatch e clauses s'
    end.

(** The bare [except:] catches everything. *)
Definition any_exn (e : exn) : bool := true.

(** [try: body finally: final]: [final] always runs; an exception of the
    body is raised again after it unless [final] raises itself. *)
Definition try_finally {D A} (body : M D A) (final : M D unit) : M D A :=
  fun s =>
    match body s with
    | (r, s') =>
        match final s' with
        | (Returns _, s'') => (r, s'')
        | (Raises e, s'') => (Raises e, s'')
        end
    end.

(** [time.sleep(secs)]: a negative length is a [ValueError]. *)
Definition py_sleep {D} (secs : Z) (o : outcome unit) : M D unit :=
  if secs <? 0
  then raise (OtherException "sleep length must be non-negative")
  else call (EvSleep secs) o.

(** [with open(path, 'w') as f: json.dump(value, f, indent=2)].  The
    artifact is in the trace only if the write went through. *)
Definition json_dump_to {D} (path : string) (value : artifact)
    (o : outcome unit) : M D unit :=
  match o with
  | Returns _ => emit (EvWrite path value)
  | Raises e => emit (EvWriteFailed path) ;; raise e
  end.

(** Running a program of the tool from an initial dictionary and an empty
    trace. *)
Definition exec {D A} (m : M D A) (d : D) : outcome A * St D :=
  m (mkSt d []).

(** ** [X16DevTool.build_project] *)

(** What the outside world does during one [build_project]. *)
Record BuildEnv : Type := mkBuildEnv {
  be_now : string;                          (* datetime.now().isoformat() *)
  be_make : outcome (Z * string * string);  (* returncode, stdout, stderr *)
  be_write : outcome unit                   (* open + json.dump *)
}.

Definition init_build_log (w : BuildEnv) (game : string) : BuildLog :=
  mkBuildLog (be_now w) ("make GAME=" ++ game) false "" "" None.

Definition set_build_result (rc : Z) (out err : string) (b : BuildLog)
  : BuildLog :=
  mkBuildLog (bl_timestamp b) (bl_command b) (rc =? 0) out err (Some rc).

Definition set_build_errors (msg : string) (b : BuildLog) : BuildLog :=
  mkBuildLog (bl_timestamp b) (bl_command b) (bl_success b) (bl_output b)
             msg (bl_return_code b).

Definition build_log_file (self : X16DevTool) : string :=
  path_join (logs_dir self) ("build_" ++ tool_session_id self ++ ".json").

Definition build_project_body (self : X16DevTool) (w : BuildEnv)
    (game : string) : M BuildLog bool :=
  try_except
    (r <- call (EvMake game) (be_make w) ;;
     let '(rc, out, err) := r in
     modify (set_build_result rc out err))
    [ (is_TimeoutExpired,
       fun _ => modify (set_build_errors "Build timeout after 30 seconds"));
      (is_Exception,
       fun e => modify (set_build_errors (str_of_exn e))) ] ;;
  build_log <- get ;;
  json_dump_to (build_log_file self) (ABuild build_log) (be_write w) ;;
  ret (bl_success build_log).

Definition build_project (self : X16DevTool) (w : BuildEnv)
    (game : string) : outcome bool * St BuildLog :=
  exec (build_project_body self w game) (init_build_log w game).

(** ** [X16DevTool.run_emulator_with_capture] *)

(** What the outside world does during one run.  Calls that the source
    repeats in its loop are indexed by the loop position [i] of
    [enumerate(screenshot_times)]. *)
Record RunEnv : Type := mkRunEnv {
  re_now : string;                          (* datetime.now().isoformat() *)
  re_program_exists : bool;                 (* program_path.exists() *)
  re_popen : outcome Z;                     (* subprocess.Popen(...).pid *)
  re_sleep_grace : outcome unit;            (* time.sleep(5) *)
  re_poll : outcome (option Z);             (* emulator_process.poll() *)
  re_communicate_early : outcome (string * string);
  re_activate : outcome unit;               (* osascript ... activate *)
  re_sleep_step : nat -> outcome unit;      (* time.sleep in the loop *)
  re_hms : nat -> string;                   (* strftime("%H%M%S") *)
  re_screencapture : nat -> outcome unit;   (* screencapture -x, check=True *)
  re_capture_secs : nat -> Z;               (* wall-clock cost of capture i *)
  re_sleep_rest : outcome unit;             (* time.sleep(remaining_time) *)
  re_communicate_final : outcome (string * string);
  re_pkill : outcome unit;                  (* pkill x16emu *)
  re_gif_exists : bool;                     (* Path(gif).exists() *)
  re_write : outcome unit                   (* open + json.dump *)
}.

Definition init_session (self : X16DevTool) (w : RunEnv) (program : string)
    (duration : Z) : Session :=
  mkSession (tool_session_id self) (re_now w) program duration
            [] None "" "" unknown false None None.

Definition set_program_exists (b : bool) (s : Session) : Session :=
  mkSession (session_id s) (timestamp s) (program s) (duration s)
    (screenshots s) (gif_recording s) (emulator_output s)
    (emulator_stderr s) (status s) b (emulator_pid s) (error_msg s).

Definition set_status (st : Status) (s : Session) : Session :=
  mkSession (session_id s) (timestamp s) (program s) (duration s)
    (screenshots s) (gif_recording s) (emulator_output s)
    (emulator_stderr s) st (program_exists s) (emulator_pid s) (error_msg s).

Definition set_gif_recording (g : option string) (s : Session) : Session :=
  mkSession (session_id s) (timestamp s) (program s) (duration s)
    (screenshots s) g (emulator_output s)
    (emulator_stderr s) (status s) (program_exists s) (emulator_pid s)
    (error_msg s).

Definition set_emulator_pid (pid : Z) (s : Session) : Session :=
  mkSession (session_id s) (timestamp s) (program s) (duration s)
    (screenshots s) (gif_recording s) (emulator_output s)
    (emulator_stderr s) (status s) (program_exists s) (Some pid)
    (error_msg s).

Definition set_emulator_output (out : string) (s : Session) : Session :=
  mkSession (session_id s) (timestamp s) (program s) (duration s)
    (screenshots s) (gif_recording s) out
    (emulator_stderr s) (status s) (program_exists s) (emulator_pid s)
    (error_msg s).

Definition set_emulator_stderr (err : string) (s : Session) : Session :=
  mkSession (session_id s) (timestamp s) (program s) (duration s)
    (screenshots s) (gif_recording s) (emulator_output s)
    err (status s) (program_exists s) (emulator_pid s) (error_msg s).

Definition set_error (msg : string) (s : Session) : Session :=
  mkSession (session_id s) (timestamp s) (program s) (duration s)
    (screenshots s) (gif_recording s) (emulator_output s)
    (emulator_stderr s) (status s) (program_exists s) (emulator_pid s)
    (Some msg).

(** [session_data["screenshots"].append(c)] *)
Definition append_screenshot (c : Capture) (s : Session) : Session :=
  mkSession (session_id s) (timestamp s) (program s) (duration s)
    (screenshots s ++ [c]) (gif_recording s) (emulator_output s)
    (emulator_stderr s) (status s) (program_exists s) (emulator_pid s)
    (error_msg s).

(** [screenshot_times = [1, 3, 5, 8, 10]] *)
Definition screenshot_times : list Z := [1; 3; 5; 8; 10].

(** [max(l)]: a [ValueError] on the empty list. *)
Definition py_max (l : list Z) : outcome Z :=
  match l with
  | [] => Raises (OtherException "max() arg is an empty sequence")
  | x :: rest => Returns (fold_left Z.max rest x)
  end.

(** [capture_screenshot(label)], the [i]-th call of the run. *)
Definition capture_screenshot {D} (self : X16DevTool) (w : RunEnv) (i : nat)
    (label : string) : M D (option string) :=
  let filename :=
    "screenshot_" ++ tool_session_id self ++ "_" ++ re_hms w i in
  let filename :=
    if (label =? "")%string then filename else filename ++ "_" ++ label in
  let filename := filename ++ ".png" in
  let screenshot_path := path_join (screenshots_dir self) filename in
  try_except
    (call (EvScreencapture screenshot_path) (re_screencapture w i) ;;
     ret (Some screenshot_path))
    [ (is_Exception, fun _ => ret None) ].

(** One round of the [for i, capture_time in enumerate(screenshot_times)]
    loop; [prev] is [screenshot_times[i-1] if i > 0 else 0]. *)
Definition capture_step (self : X16DevTool) (w : RunEnv) (duration : Z)
    (i : nat) (prev : Z) (capture_time : Z) : M Session unit :=
  if capture_time <=? duration then
    py_sleep (capture_time - prev) (re_sleep_step w i) ;;
    screenshot_file <-
      capture_screenshot self w i ("step_" ++ str_of_nat (i + 1)) ;;
    match screenshot_file with
    | Some f =>
        modify (append_screenshot (mkCapture capture_time f (i + 1)))
    | None => ret tt
    end
  else ret tt.

(** The loop itself. *)
Fixpoint capture_loop (self : X16DevTool) (w : RunEnv) (duration : Z)
    (i : nat) (prev : Z) (times : list Z) : M Session unit :=
  match times with
  | [] => ret tt
  | capture_time :: rest =>
      capture_step self w duration i prev capture_time ;;
      capture_loop self w duration (S i) capture_time rest
  end.

Definition program_path (self : X16DevTool) (program : string) : string :=
  path_join (project_dir self) program.

Definition gif_path (self : X16DevTool) : string :=
  path_join (screenshots_dir self)
            ("recording_" ++ tool_session_id self ++ ".gif").

Definition emulator_cmd (self : X16DevTool) (program : string)
  : list string :=
  ["x16emu"; "-prg"; program; "-run"; "-gif"; gif_path self].

Definition session_file (self : X16DevTool) : string :=
  path_join (logs_dir self) ("session_" ++ tool_session_id self ++ ".json").

(** The [# Kill emulator] block: [try: pkill ...; status = "completed";
    announce the recording if its file exists  except: status =
    "force_killed"]. *)
Definition kill_emulator (w : RunEnv) : M Session unit :=
  try_except
    (call EvPkill (re_pkill w) ;;
     modify (set_status completed) ;;
     session_data <- get ;;
     match gif_recording session_data with
     | Some g =>
         if (g =? "")%string then ret tt
         else
           emit (EvExists g) ;;
           if re_gif_exists w then emit (EvAnnounceGif g) else ret tt
     | None => ret tt
     end)
    [ (any_exn, fun _ => modify (set_status force_killed)) ].

(** The body of the outer [try].  The result says whether the
    [return session_data] of the early-exit branch was executed. *)
Definition try_block (times : list Z) (self : X16DevTool) (w : RunEnv)
    (program : string) (duration : Z) : M Session bool :=
  pid <- call (EvPopen (emulator_cmd self program)) (re_popen w) ;;
  modify (set_emulator_pid pid) ;;
  py_sleep 5 (re_sleep_grace w) ;;
  polled <- call EvPoll (re_poll w) ;;
  match polled with
  | Some _ =>
      r <- call (EvCommunicate None) (re_communicate_early w) ;;
      let '(stdout, stderr) := r in
      modify (set_emulator_output stdout) ;;
      modify (set_emulator_stderr stderr) ;;
      modify (set_status emulator_exited_early) ;;
      ret true
  | None =>
      try_except (call EvActivate (re_activate w))
                 [ (any_exn, fun _ => ret tt) ] ;;
      capture_loop self w duration 0 0 times ;;
      biggest <- lift (py_max times) ;;
      let remaining_time := duration - biggest in
      (if 0 <? remaining_time
       then py_sleep remaining_time (re_sleep_rest w)
       else ret tt) ;;
      try_except
        (r <- call (EvCommunicate (Some 2)) (re_communicate_final w) ;;
         let '(emulator_output, _) := r in
         modify (set_emulator_output emulator_output))
        [ (is_TimeoutExpired,
           fun _ =>
             modify (set_emulator_output
                       "Emulator still running (timeout)")) ] ;;
      kill_emulator w ;;
      ret false
  end.

(** The handler of the outer [except Exception as e]. *)
Definition on_exception (w : RunEnv) (e : exn) : M Session bool :=
  modify (set_status error) ;;
  modify (set_error (str_of_exn e)) ;;
  try_except (call EvPkill (re_pkill w)) [ (any_exn, fun _ => ret tt) ] ;;
  ret false.

(** The whole method, over an arbitrary schedule. *)
Definition run_body (times : list Z) (self : X16DevTool) (w : RunEnv)
    (program : string) (duration : Z) : M Session Session :=
  emit (EvExists (program_path self program)) ;;
  modify (set_program_exists (re_program_exists w)) ;;
  if negb (re_program_exists w) then
    modify (set_status program_not_found) ;;
    get
  else
    modify (set_gif_recording (Some (gif_path self))) ;;
    returned <- try_except (try_block times self w program duration)
                           [ (is_Exception, on_exception w) ] ;;
    if (returned : bool) then get
    else
      session_data <- get ;;
      json_dump_to (session_file self) (ASession session_data) (re_write w) ;;
      get.

Definition run_with_schedule (times : list Z) (self : X16DevTool)
    (w : RunEnv) (program : string) (duration : Z)
  : outcome Session * St Session :=
  exec (run_body times self w program duration)
       (init_session self w program duration).

(** [run_emulator_with_capture(program, duration)]: the schedule is the
    local constant [screenshot_times]. *)
Definition run_emulator_with_capture (self : X16DevTool) (w : RunEnv)
    (program : string) (duration : Z) : outcome Session * St Session :=
  run_with_schedule screenshot_times self w program duration.

(** A tool as [X16DevTool(".")] builds it, and a world in which everything
    goes well and the emulator outlives the schedule. *)
Definition demo_tool : X16DevTool :=
  mkTool "." "dev_screenshots" "dev_logs" "20240101_120000".

Definition calm_world : RunEnv :=
  mkRunEnv "2024-01-01T12:00:00" true (Returns 4242) (Returns tt)
           (Returns None) (Returns ("", "")) (Returns tt)
           (fun _ => Returns tt) (fun _ => "120000") (fun _ => Returns tt)
           (fun _ => 0) (Returns tt) (Returns ("ready", "")) (Returns tt)
           true (Returns tt).

(** ** [X16DevTool.analyze_session] *)

(** [c.lower()] on one character of the ASCII range. *)
Definition lower_ascii (c : ascii) : ascii :=
  let n := nat_of_ascii c in
  if (65 <=? n)%nat && (n <=? 90)%nat then ascii_of_nat (n + 32) else c.

(** [s.lower()] *)
Fixpoint lower (s : string) : string :=
  match s with
  | EmptyString => EmptyString
  | String c rest => String (lower_ascii c) (lower rest)
  end.

(** [s.startswith(p)] *)
Fixpoint startswith (p s : string) : bool :=
  match p with
  | EmptyString => true
  | String a p' =>
      match s with
      | EmptyString => false
      | String b s' => Ascii.eqb a b && startswith p' s'
      end
  end.

(** [needle in hay] *)
Fixpoint contains (needle hay : string) : bool :=
  startswith needle hay ||
  match hay with
  | EmptyString => false
  | String _ rest => contains needle rest
  end.

(** What the outside world answers during one [analyze_session]. *)
Record AnalysisEnv : Type := mkAnalysisEnv {
  ae_now : string;                  (* datetime.now().isoformat() *)
  ae_exists : string -> bool;       (* Path(file).exists() *)
  ae_size : string -> Z;            (* Path(file).stat().st_size *)
  ae_write : outcome unit           (* open + json.dump *)
}.

Definition init_analysis (w : AnalysisEnv) (session_data : Session)
  : Analysis :=
  mkAnalysis (session_id session_data) (ae_now w) "unknown"
             (List.length (screenshots session_data)) [] [].

(** [analysis["issues_detected"].append(msg)] *)
Definition add_issue (msg : string) (a : Analysis) : Analysis :=
  mkAnalysis (an_session_id a) (an_timestamp a) (an_program_status a)
             (an_screenshots_captured a) (an_issues_detected a ++ [msg])
             (an_recommendations a).

(** [analysis["recommendations"].append(msg)] *)
Definition add_recommendation (msg : string) (a : Analysis) : Analysis :=
  mkAnalysis (an_session_id a) (an_timestamp a) (an_program_status a)
             (an_screenshots_captured a) (an_issues_detected a)
             (an_recommendations a ++ [msg]).

(** [session_data.get('error', 'Unknown')] *)
Definition error_or_unknown (session_data : Session) : string :=
  match error_msg session_data with
  | Some msg => msg
  | None => "Unknown"
  end.

(** The [for screenshot in session_data["screenshots"]] loop. *)
Fixpoint check_screenshots (w : AnalysisEnv) (shots : list Capture)
  : M Analysis unit :=
  match shots with
  | [] => ret tt
  | screenshot :: rest =>
      (if ae_exists w (file screenshot) then
         let file_size := ae_size w (file screenshot) in
         if file_size <? 1000 then
           modify (add_issue ("Screenshot " ++ str_of_nat (step screenshot)
                                ++ " is unusually small"))
         else if 20000000 <? file_size then
           modify (add_issue ("Screenshot " ++ str_of_nat (step screenshot)
                                ++ " is unusually large"))
         else ret tt
       else ret tt) ;;
      check_screenshots w rest
  end.

Definition analysis_file (self : X16DevTool) : string :=
  path_join (logs_dir self) ("analysis_" ++ tool_session_id self ++ ".json").

Definition analyze_body (self : X16DevTool) (w : AnalysisEnv)
    (session_data : Session) : M Analysis Analysis :=
  (if (List.length (screenshots session_data) =? 0)%nat then
     modify (add_issue "No screenshots captured") ;;
     modify (add_recommendation "Check screencapture permissions")
   else ret tt) ;;
  (if Status_eqb (status session_data) error then
     modify (add_issue ("Emulator error: " ++ error_or_unknown session_data)) ;;
     modify (add_recommendation
               "Check emulator installation and program file")
   else ret tt) ;;
  (if contains "error" (lower (emulator_output session_data)) then
     modify (add_issue "Emulator reported errors")
   else ret tt) ;;
  check_screenshots w (screenshots session_data) ;;
  analysis <- get ;;
  json_dump_to (analysis_file self) (AAnalysis analysis) (ae_write w) ;;
  ret analysis.

Definition analyze_session (self : X16DevTool) (w : AnalysisEnv)
    (session_data : Session) : outcome Analysis * St Analysis :=
  exec (analyze_body self w session_data) (init_analysis w session_data).


(** * tools/development_loop.py: [X16DevLoop] *)

Module X16DevLoop.

(** [self]: [emulator_process] is [None] until [start_emulator] stored a
    process object (which is always truthy and never reset). *)
Record Loop : Type := mkLoop {
  emulator_process : bool;
  iteration : nat
}.

Definition project_dir : string := "/Users/benjamincooley/projects/pacman_x16".

(** What the outside world does; calls made once per cycle are indexed by
    [self.iteration]. *)
Record LoopEnv : Type := mkLoopEnv {
  dl_hms : nat -> string;                 (* strftime in take_screenshot *)
  dl_iso : nat -> string;                 (* isoformat in analyze_progress *)
  dl_make_clean : nat -> outcome unit;
  dl_make : nat -> outcome (Z * string);  (* returncode, stderr *)
  dl_killall_before : nat -> outcome unit;
  dl_sleep_1 : nat -> outcome unit;
  dl_popen : nat -> outcome unit;
  dl_sleep_3 : nat -> outcome unit;
  dl_sleep_10 : nat -> outcome unit;
  dl_sleep_shot : nat -> outcome unit;
  dl_listdir : nat -> outcome (list string);
  dl_ctime : string -> Z;                 (* os.path.getctime *)
  dl_rename : nat -> outcome unit;
  dl_stop : nat -> outcome unit * outcome unit * outcome unit;
                                          (* terminate, wait, killall *)
  dl_log : nat -> outcome unit;
  dl_sleep_5 : nat -> outcome unit;
  dl_cleanup : outcome unit * outcome unit * outcome unit
}.

Definition set_emulator_process (self : Loop) : Loop :=
  mkLoop true (iteration self).

Definition next_iteration (self : Loop) : Loop :=
  mkLoop (emulator_process self) (iteration self + 1).

Definition build_project (w : LoopEnv) : M Loop bool :=
  self <- get ;;
  try_except
    (call EvMakeClean (dl_make_clean w (iteration self)) ;;
     result <- call EvMakeAll (dl_make w (iteration self)) ;;
     let '(returncode, _) := result in
     if returncode =? 0 then ret true else ret false)
    [ (is_Exception, fun _ => ret false) ].

Definition start_emulator (w : LoopEnv) : M Loop bool :=
  self <- get ;;
  try_except
    (call EvKillall (dl_killall_before w (iteration self)) ;;
     py_sleep 1 (dl_sleep_1 w (iteration self)) ;;
     call (EvPopen ["x16emu"; "-prg"; "pacman.prg"; "-run"])
          (dl_popen w (iteration self)) ;;
     modify set_emulator_process ;;
     py_sleep 3 (dl_sleep_3 w (iteration self)) ;;
     ret true)
    [ (is_Exception, fun _ => ret false) ].

(** [f"{n:03d}"] *)
Definition pad3 (n : nat) : string :=
  let digits := str_of_nat n in
  match String.length digits with
  | 1%nat => "00" ++ digits
  | 2%nat => "0" ++ digits
  | _ => digits
  end.

(** [s.endswith(suffix)] *)
Fixpoint endswith (suffix s : string) : bool :=
  (s =? suffix)%string ||
  match s with
  | EmptyString => false
  | String _ rest => endswith suffix rest
  end.

(** [max(l, key=key)] on a non-empty list [best :: l]: the first of the
    largest. *)
Fixpoint max_by (key : string -> Z) (best : string) (l : list string)
  : string :=
  match l with
  | [] => best
  | x :: rest => max_by key (if key best <? key x then x else best) rest
  end.

Definition take_screenshot (w : LoopEnv) : M Loop (option string) :=
  self <- get ;;
  py_sleep 1 (dl_sleep_shot w (iteration self)) ;;
  files <- call (EvListdir project_dir) (dl_listdir w (iteration self)) ;;
  match filter (endswith ".png") files with
  | [] => ret None
  | f :: others =>
      let latest_png := max_by (dl_ctime w) f others in
      let new_name :=
        "iteration_" ++ pad3 (iteration self) ++ "_" ++ latest_png in
      call (EvRename (path_join project_dir latest_png)
                     (path_join project_dir new_name))
           (dl_rename w (iteration self)) ;;
      ret (Some new_name)
  end.

(** [stop_emulator()], with the answers of terminate, wait and killall. *)
Definition stop_emulator
    (answers : outcome unit * outcome unit * outcome unit) : M Loop unit :=
  let '(terminate, wait, killall) := answers in
  self <- get ;;
  try_except
    ((if emulator_process self then
        call EvTerminate terminate ;;
        call (EvWait 5) wait
      else ret tt) ;;
     call EvKillall killall)
    [ (is_Exception, fun _ => ret tt) ].

(** The dictionary of [analyze_progress], as [log_iteration] prints it. *)
Definition log_lines (w : LoopEnv) (self : Loop)
    (screenshot_name : option string) : list string :=
  [ "--- Iteration " ++ str_of_nat (iteration self) ++ " ---";
    "Timestamp: " ++ dl_iso w (iteration self);
    "Screenshot: " ++ match screenshot_name with
                      | Some name => name
                      | None => "None"
                      end;
    "Status: running";
    "Next Action: continue_development" ].

Definition log_iteration (w : LoopEnv) (screenshot_name : option string)
  : M Loop unit :=
  self <- get ;;
  call (EvAppend (path_join project_dir "development_log.txt")
                 (log_lines w self screenshot_name))
       (dl_log w (iteration self)).

Definition run_development_cycle (w : LoopEnv) : M Loop bool :=
  self <- get ;;
  built <- build_project w ;;
  if negb built then ret false
  else
    started <- start_emulator w ;;
    if negb started then ret false
    else
      py_sleep 10 (dl_sleep_10 w (iteration self)) ;;
      screenshot <- take_screenshot w ;;
      stop_emulator (dl_stop w (iteration self)) ;;
      log_iteration w screenshot ;;
      modify next_iteration ;;
      ret true.

Definition cleanup (w : LoopEnv) : M Loop unit :=
  stop_emulator (dl_cleanup w).

(** [while self.iteration < max_iterations: ...]; every round that does
    not leave the loop adds one to [self.iteration], so
    [max_iterations - self.iteration + 1] rounds of fuel are enough. *)
Fixpoint while_loop (w : LoopEnv) (max_iterations : nat) (fuel : nat)
  : M Loop unit :=
  match fuel with
  | O => ret tt
  | S fuel' =>
      self <- get ;;
      if (iteration self <? max_iterations)%nat then
        ok <- run_development_cycle w ;;
        if negb ok then ret tt
        else
          self <- get ;;
          (if (iteration self <? max_iterations)%nat
           then py_sleep 5 (dl_sleep_5 w (iteration self))
           else ret tt) ;;
          while_loop w max_iterations fuel'
      else ret tt
  end.

Definition run_loop_body (w : LoopEnv) (max_iterations : nat)
  : M Loop unit :=
  self <- get ;;
  try_finally
    (try_except
       (while_loop w max_iterations (S (max_iterations - iteration self)))
       [ (is_KeyboardInterrupt, fun _ => ret tt) ])
    (cleanup w).

(** [X16DevLoop().run_loop(max_iterations)] *)
Definition run_loop (w : LoopEnv) (max_iterations : nat)
  : outcome unit * St Loop :=
  exec (run_loop_body w max_iterations) (mkLoop false 0).

(** The calls by which [stop_emulator] stops the emulator. *)
Definition stop_event (ev : event) : Prop :=
  match ev with
  | EvTerminate | EvWait _ | EvKillall => True
  | _ => False
  end.

(** One cycle in which the build works, the emulator starts, and Ctrl-C
    arrives during the ten seconds of running. *)
Definition interrupted_loop : LoopEnv :=
  mkLoopEnv (fun _ => "2024-01-01-12-00-00") (fun _ => "2024-01-01T12:00:00")
    (fun _ => Returns tt) (fun _ => Returns (0, ""))
    (fun _ => Returns tt) (fun _ => Returns tt) (fun _ => Returns tt)
    (fun _ => Returns tt) (fun _ => Raises KeyboardInterrupt)
    (fun _ => Returns tt) (fun _ => Returns ["shot.png"]) (fun _ => 0)
    (fun _ => Returns tt) (fun _ => (Returns tt, Returns tt, Returns tt))
    (fun _ => Returns tt) (fun _ => Returns tt)
    (Returns tt, Returns tt, Returns tt).

End X16DevLoop.

(** ** Summaries used in the proofs *)

(** The dictionary after [caps] were appended to its capture list. *)
Definition with_captures (caps : list Capture) (d : Session) : Session :=
  mkSession (session_id d) (timestamp d) (program d) (duration d)
    (screenshots d ++ caps) (gif_recording d) (emulator_output d)
    (emulator_stderr d) (status d) (program_exists d) (emulator_pid d)
    (error_msg d).

(** The only external calls the loop makes. *)
Definition loop_event (ev : event) : Prop :=
  match ev with
  | EvSleep _ | EvScreencapture _ => True
  | _ => False
  end.

(** The file name [capture_screenshot] builds in round [i]. *)
Definition screenshot_path (self : X16DevTool) (w : RunEnv) (i : nat)
  : string :=
  let label := "step_" ++ str_of_nat (i + 1) in
  path_join (screenshots_dir self)
    ((if (label =? "")%string
      then "screenshot_" ++ tool_session_id self ++ "_" ++ re_hms w i
      else ("screenshot_" ++ tool_session_id self ++ "_" ++ re_hms w i)
             ++ "_" ++ label) ++ ".png").

(** What one round of the loop does, by cases on what the world answers. *)
Inductive round : Type :=
| Skipped                       (* capture_time > duration *)
| BadSleep                      (* negative sleep length *)
| SleepRaised (e : exn)
| Captured
| CaptureFailed                 (* an Exception inside capture_screenshot *)
| CaptureRaised (e : exn).      (* not an Exception: it propagates *)

Definition round_of (w : RunEnv) (duration : Z) (i : nat) (prev t : Z)
  : round :=
  if t <=? duration then
    if t - prev <? 0 then BadSleep
    else match re_sleep_step w i with
         | Raises e => SleepRaised e
         | Returns _ =>
             match re_screencapture w i with
             | Returns _ => Captured
             | Raises e => if is_Exception e then CaptureFailed
                           else CaptureRaised e
             end
         end
  else Skipped.

(** The whole loop in one go: how it ends, the captures it appends and the
    calls it makes. *)
Fixpoint loop_summary (self : X16DevTool) (w : RunEnv) (duration : Z)
    (i : nat) (prev : Z) (times : list Z)
  : outcome unit * list Capture * list event :=
  match times with
  | [] => (Returns tt, [], [])
  | t :: rest =>
      let '(o, caps, evs) := loop_summary self w duration (S i) t rest in
      let sleep := EvSleep (t - prev) in
      let shot := EvScreencapture (screenshot_path self w i) in
      match round_of w duration i prev t with
      | Skipped => (o, caps, evs)
      | BadSleep =>
          (Raises (OtherException "sleep length must be non-negative"),
           [], [])
      | SleepRaised e => (Raises e, [], [sleep])
      | Captured =>
          (o, mkCapture t (screenshot_path self w i) (i + 1) :: caps,
           sleep :: shot :: evs)
      | CaptureFailed => (o, caps, sleep :: shot :: evs)
      | CaptureRaised e => (Raises e, [], [sleep; shot])
      end
  end.

(** The statuses a finished run can carry. *)
Definition terminal_statuses : list Status :=
  [program_not_found; emulator_exited_early; completed; force_killed; error].

(** The lengths of the [time.sleep] calls of a trace, in order. *)
Fixpoint sleeps_of (evs : list event) : list Z :=
  match evs with
  | [] => []
  | EvSleep secs :: rest => secs :: sleeps_of rest
  | _ :: rest => sleeps_of rest
  end.

(** The build logs a trace wrote. *)
Fixpoint persisted_builds (evs : list event) : list (string * BuildLog) :=
  match evs with
  | [] => []
  | EvWrite path (ABuild b) :: rest => (path, b) :: persisted_builds rest
  | _ :: rest => persisted_builds rest
  end.

(** How many times a trace issued [pkill x16emu]. *)
Fixpoint stop_calls (evs : list event) : nat :=
  match evs with
  | [] => 0
  | EvPkill :: rest => S (stop_calls rest)
  | _ :: rest => stop_calls rest
  end.

(** The session artifacts a trace wrote. *)
Fixpoint persisted_sessions (evs : list event) : list Session :=
  match evs with
  | [] => []
  | EvWrite _ (ASession s) :: rest => s :: persisted_sessions rest
  | _ :: rest => persisted_sessions rest
  end.


(** ** Sample worlds *)

Definition set_program_present (b : bool) (w : RunEnv) : RunEnv :=
  mkRunEnv (re_now w) b (re_popen w) (re_sleep_grace w) (re_poll w)
    (re_communicate_early w) (re_activate w) (re_sleep_step w) (re_hms w)
    (re_screencapture w) (re_capture_secs w) (re_sleep_rest w)
    (re_communicate_final w) (re_pkill w) (re_gif_exists w) (re_write w).

Definition set_poll (o : outcome (option Z)) (w : RunEnv) : RunEnv :=
  mkRunEnv (re_now w) (re_program_exists w) (re_popen w) (re_sleep_grace w)
    o (re_communicate_early w) (re_activate w) (re_sleep_step w) (re_hms w)
    (re_screencapture w) (re_capture_secs w) (re_sleep_rest w)
    (re_communicate_final w) (re_pkill w) (re_gif_exists w) (re_write w).

Definition set_communicate_early (o : outcome (string * string))
    (w : RunEnv) : RunEnv :=
  mkRunEnv (re_now w) (re_program_exists w) (re_popen w) (re_sleep_grace w)
    (re_poll w) o (re_activate w) (re_sleep_step w) (re_hms w)
    (re_screencapture w) (re_capture_secs w) (re_sleep_rest w)
    (re_communicate_final w) (re_pkill w) (re_gif_exists w) (re_write w).

Definition set_sleep_step (f : nat -> outcome unit) (w : RunEnv) : RunEnv :=
  mkRunEnv (re_now w) (re_program_exists w) (re_popen w) (re_sleep_grace w)
    (re_poll w) (re_communicate_early w) (re_activate w) f (re_hms w)
    (re_screencapture w) (re_capture_secs w) (re_sleep_rest w)
    (re_communicate_final w) (re_pkill w) (re_gif_exists w) (re_write w).

Definition set_screencapture (f : nat -> outcome unit) (w : RunEnv)
  : RunEnv :=
  mkRunEnv (re_now w) (re_program_exists w) (re_popen w) (re_sleep_grace w)
    (re_poll w) (re_communicate_early w) (re_activate w) (re_sleep_step w)
    (re_hms w) f (re_capture_secs w) (re_sleep_rest w)
    (re_communicate_final w) (re_pkill w) (re_gif_exists w) (re_write w).

Definition set_capture_secs (f : nat -> Z) (w : RunEnv) : RunEnv :=
  mkRunEnv (re_now w) (re_program_exists w) (re_popen w) (re_sleep_grace w)
    (re_poll w) (re_communicate_early w) (re_activate w) (re_sleep_step w)
    (re_hms w) (re_screencapture w) f (re_sleep_rest w)
    (re_communicate_final w) (re_pkill w) (re_gif_exists w) (re_write w).


(** The program file is missing. *)
Definition not_found_world : RunEnv := set_program_present false calm_world.

(** The emulator is found dead by the probe that follows the 5 s wait. *)
Definition early_exit_world : RunEnv :=
  set_communicate_early (Returns ("", "Error: cannot open ROM"))
    (set_poll (Returns (Some 1)) calm_world).

(** The emulator is found dead by the probe, and reading its pipes
    fails. *)
Definition drain_fails_world : RunEnv :=
  set_communicate_early
    (Raises (OtherException "I/O operation on closed file"))
    (set_poll (Returns (Some 1)) calm_world).

(** Ctrl-C arrives during the sleep before the second capture. *)
Definition interrupted_world : RunEnv :=
  set_sleep_step
    (fun i => if (i =? 1)%nat then Raises KeyboardInterrupt else Returns tt)
    calm_world.

(** The first screencapture call fails, the others succeed. *)
Definition first_capture_fails_world : RunEnv :=
  set_screencapture
    (fun i => if (i =? 0)%nat
              then Raises (OtherException "screencapture exited with 1")
              else Returns tt)
    calm_world.


(** Every screencapture call takes one second. *)
Definition slow_capture_world : RunEnv :=
  set_capture_secs (fun _ => 1) calm_world.


(** ** The timing of the schedule *)

(** The sleeps of the capture loop when none of its calls raises: for each
    offset within the duration, the offset minus its predecessor in the
    schedule. *)
Fixpoint scheduled_sleeps (duration prev : Z) (times : list Z) : list Z :=
  match times with
  | [] => []
  | t :: rest =>
      (if t <=? duration then [t - prev] else [])
        ++ scheduled_sleeps duration t rest
  end.

(** The sleep after the loop: [duration - max(screenshot_times)] when that
    is positive. *)
Definition final_sleeps (duration : Z) (times : list Z) : list Z :=
  match py_max times with
  | Returns biggest =>
      if 0 <? duration - biggest then [duration - biggest] else []
  | Raises _ => []
  end.

(** The offset of the last capture the loop executes (0 if none). *)
Fixpoint last_executed_offset (duration last : Z) (times : list Z) : Z :=
  match times with
  | [] => last
  | t :: rest =>
      last_executed_offset duration (if t <=? duration then t else last) rest
  end.

(** The remainder sleep in the words of the specification: the total
    duration minus the last executed offset, clamped at 0. *)
Definition claimed_final_sleep (duration : Z) (times : list Z) : Z :=
  Z.max 0 (duration - last_executed_offset duration 0 times).

(** The relative sleep in the words of the specification: the next offset
    minus the previous offset minus the time that actually elapsed,
    clamped at 0. *)
Definition drift_resistant_sleep (next prev elapsed : Z) : Z :=
  Z.max 0 (next - prev - elapsed).

(** The sleeps of the loop in the words of the specification; [elapsed]
    is the time the capture call before the sleep took. *)
Fixpoint claimed_sleeps (w : RunEnv) (duration : Z) (i : nat)
    (prev elapsed : Z) (times : list Z) : list Z :=
  match times with
  | [] => []
  | t :: rest =>
      if t <=? duration
      then drift_resistant_sleep t prev elapsed
             :: claimed_sleeps w duration (S i) t (re_capture_secs w i) rest
      else claimed_sleeps w duration (S i) t 0 rest
  end.

(** Wall-clock seconds, counted from the start of the loop, at which each
    screencapture call of a trace is fired: a sleep lasts its length, the
    [k]-th capture call lasts [re_capture_secs w k]. *)
Fixpoint fire_times (w : RunEnv) (now : Z) (k : nat) (evs : list event)
  : list Z :=
  match evs with
  | [] => []
  | EvSleep secs :: rest => fire_times w (now + secs) k rest
  | EvScreencapture _ :: rest =>
      now :: fire_times w (now + re_capture_secs w k) (S k) rest
  | _ :: rest => fire_times w now k rest
  end.


(** ** Sample inputs of the analysis and of the build *)

(** The issues [check_screenshots] contributes, in order. *)
Fixpoint screenshot_issues (w : AnalysisEnv) (shots : list Capture)
  : list string :=
  match shots with
  | [] => []
  | screenshot :: rest =>
      (if ae_exists w (file screenshot) then
         if ae_size w (file screenshot) <? 1000 then
           ["Screenshot " ++ str_of_nat (step screenshot)
              ++ " is unusually small"]
         else if 20000000 <? ae_size w (file screenshot) then
           ["Screenshot " ++ str_of_nat (step screenshot)
              ++ " is unusually large"]
         else []
       else [])
        ++ screenshot_issues w rest
  end.

(** The analysis after [msgs] were appended to its issue list. *)
Definition with_issues (msgs : list string) (a : Analysis) : Analysis :=
  mkAnalysis (an_session_id a) (an_timestamp a) (an_program_status a)
             (an_screenshots_captured a) (an_issues_detected a ++ msgs)
             (an_recommendations a).

Definition quiet_files : AnalysisEnv :=
  mkAnalysisEnv "2024-01-01T12:00:20" (fun _ => true) (fun _ => 250000)
                (Returns tt).

(** A Session as the early-exit branch returns it: the emulator complained
    on stderr and printed nothing on stdout. *)
Definition stderr_only_session : Session :=
  mkSession "20240101_120000" "2024-01-01T12:00:00" "pacman.prg" 10 []
            (Some "dev_screenshots/recording_20240101_120000.gif")
            "" "Error: cannot open ROM" emulator_exited_early true
            (Some 4242) None.

(** The same with the complaint on stdout. *)
Definition stdout_error_session : Session :=
  mkSession "20240101_120000" "2024-01-01T12:00:00" "pacman.prg" 10 []
            (Some "dev_screenshots/recording_20240101_120000.gif")
            "Fatal ERROR: cannot open ROM" "" emulator_exited_early true
            (Some 4242) None.

Definition make_ok : BuildEnv :=
  mkBuildEnv "2024-01-01T11:59:50" (Returns (0, "cl65 ... ok", ""))
             (Returns tt).

Definition make_times_out : BuildEnv :=
  mkBuildEnv "2024-01-01T11:59:50"
             (Raises (TimeoutExpired "Command make timed out after 30 seconds"))
             (Returns tt).

Definition make_missing : BuildEnv :=
  mkBuildEnv "2024-01-01T11:59:50"
             (Raises (OtherException "No such file or directory: make"))
             (Returns tt).

(** The build succeeds but the log directory cannot be written. *)
Definition log_unwritable : BuildEnv :=
  mkBuildEnv "2024-01-01T11:59:50" (Returns (0, "cl65 ... ok", ""))
             (Raises (OtherException "Permission denied: dev_logs")).



(** ** Further summaries of traces *)

(** How many screencapture calls a trace made. *)
Fixpoint capture_calls (evs : list event) : nat :=
  match evs with
  | [] => 0
  | EvScreencapture _ :: rest => S (capture_calls rest)
  | _ :: rest => capture_calls rest
  end.

(** The calls a trace made after its first [pkill x16emu]. *)
Fixpoint after_stop (evs : list event) : list event :=
  match evs with
  | [] => []
  | EvPkill :: rest => rest
  | _ :: rest => after_stop rest
  end.

(** The offsets of a schedule that lie within the duration. *)
Definition due_offsets (duration : Z) (times : list Z) : list Z :=
  filter (fun t => t <=? duration) times.

(** The emulator cannot be spawned. *)
Definition no_emulator_world : RunEnv :=
  mkRunEnv "2024-01-01T12:00:00" true
           (Raises (OtherException "No such file or directory: x16emu"))
           (Returns tt) (Returns None) (Returns ("", "")) (Returns tt)
           (fun _ => Returns tt) (fun _ => "120000") (fun _ => Returns tt)
           (fun _ => 0) (Returns tt) (Returns ("ready", "")) (Returns tt)
           true (Returns tt).

(** The emulator is still printing when the final drain gives up, and
    Ctrl-C arrives while pkill runs. *)
Definition stubborn_world : RunEnv :=
  mkRunEnv "2024-01-01T12:00:00" true (Returns 4242) (Returns tt)
           (Returns None) (Returns ("", "")) (Returns tt)
           (fun _ => Returns tt) (fun _ => "120000") (fun _ => Returns tt)
           (fun _ => 0) (Returns tt)
           (Raises (TimeoutExpired "timed out after 2 seconds"))
           (Raises KeyboardInterrupt) true (Returns tt).


(** The calls that may follow the stop command: the look for the
    recording, its announcement, and the write of the Session. *)
Definition closing_event (ev : event) : Prop :=
  match ev with
  | EvExists _ | EvAnnounceGif _ | EvWrite _ _ | EvWriteFailed _ => True
  | _ => False
  end.

(** The analysis [analyze_session] arrives at, rule by rule. *)
Definition analysis_summary (w : AnalysisEnv) (session_data : Session)
  : Analysis :=
  mkAnalysis (session_id session_data) (ae_now w) "unknown"
    (List.length (screenshots session_data))
    ((if (List.length (screenshots session_data) =? 0)%nat
      then ["No screenshots captured"] else [])
     ++ (if Status_eqb (status session_data) error
         then [("Emulator error: " ++ error_or_unknown session_data)%string]
         else [])
     ++ (if contains "error" (lower (emulator_output session_data))
         then ["Emulator reported errors"] else [])
     ++ screenshot_issues w (screenshots session_data))
    ((if (List.length (screenshots session_data) =? 0)%nat
      then ["Check screencapture permissions"] else [])
     ++ (if Status_eqb (status session_data) error
         then ["Check emulator installation and program file"] else [])).

(** The two issues a capture file can raise. *)
Definition small_issue (c : Capture) : string :=
  "Screenshot " ++ str_of_nat (step c) ++ " is unusually small".

Definition large_issue (c : Capture) : string :=
  "Screenshot " ++ str_of_nat (step c) ++ " is unusually large".

(** File sizes by name: a file of 500 bytes, one of 25 MB, one missing,
    the others of ordinary size. *)
Definition odd_files : AnalysisEnv :=
  mkAnalysisEnv "2024-01-01T12:00:20"
    (fun f => negb (f =? "gone.png")%string)
    (fun f => if (f =? "tiny.png")%string then 500
              else if (f =? "huge.png")%string then 25000000
              else 250000)
    (Returns tt).

Definition odd_session : Session :=
  mkSession "20240101_120000" "2024-01-01T12:00:00" "pacman.prg" 10
            [mkCapture 1 "tiny.png" 1; mkCapture 3 "gone.png" 2;
             mkCapture 5 "huge.png" 3; mkCapture 8 "fine.png" 4]
            (Some "dev_screenshots/recording_20240101_120000.gif")
            "ready" "" force_killed true (Some 4242) None.

(** A run that ended in the outer handler. *)
Definition failed_session : Session :=
  mkSession "20240101_120000" "2024-01-01T12:00:00" "pacman.prg" 10 []
            (Some "dev_screenshots/recording_20240101_120000.gif")
            "" "" error true None
            (Some "No such file or directory: x16emu").

(** The analysis file cannot be written. *)
Definition analysis_unwritable : AnalysisEnv :=
  mkAnalysisEnv "2024-01-01T12:00:20" (fun _ => true) (fun _ => 250000)
                (Raises (OtherException "Permission denied: dev_logs")).

(** A Session with nothing to report: one capture of ordinary size, one
    whose file is gone. *)
Definition clean_session : Session :=
  mkSession "20240101_120000" "2024-01-01T12:00:00" "pacman.prg" 10
            [mkCapture 1 "fine.png" 1; mkCapture 3 "gone.png" 2]
            (Some "dev_screenshots/recording_20240101_120000.gif")
            "ready" "" completed true (Some 4242) None.

(** ** [X16DevTool.run_full_diagnostic] *)

(** [run_full_diagnostic(game, duration)]: its result and the external
    calls of its three steps, in order. *)
Definition run_full_diagnostic (self : X16DevTool) (wb : BuildEnv)
    (wr : RunEnv) (wa : AnalysisEnv) (game : string) (duration : Z)
  : outcome bool * list event :=
  match build_project self wb game with
  | (Raises e, st) => (Raises e, trace st)
  | (Returns false, st) => (Returns false, trace st)
  | (Returns true, st) =>
      match run_emulator_with_capture self wr (game ++ ".prg") duration with
      | (Raises e, st') => (Raises e, (trace st ++ trace st')%list)
      | (Returns session_data, st') =>
          match analyze_session self wa session_data with
          | (Raises e, st'') =>
              (Raises e, (trace st ++ trace st' ++ trace st'')%list)
          | (Returns _, st'') =>
              (Returns true, (trace st ++ trace st' ++ trace st'')%list)
          end
      end
  end.

(** The analyses a trace wrote. *)
Fixpoint persisted_analyses (evs : list event) : list Analysis :=
  match evs with
  | [] => []
  | EvWrite _ (AAnalysis a) :: rest => a :: persisted_analyses rest
  | _ :: rest => persisted_analyses rest
  end.

(** make ends with exit code 2. *)
Definition make_fails : BuildEnv :=
  mkBuildEnv "2024-01-01T11:59:50"
             (Returns (2, "", "pacman.asm(12): Error: Symbol undefined"))
             (Returns tt).

(** ** Summaries for [X16DevLoop] *)

(** The calls [stop_emulator] makes: terminate and wait only when a
    process object is stored, killall unless one of them raised. *)
Definition stop_emulator_calls (has_process : bool)
    (answers : outcome unit * outcome unit * outcome unit) : list event :=
  let '(terminate, wait, _) := answers in
  if has_process then
    EvTerminate ::
    match terminate with
    | Returns _ =>
        EvWait 5 :: match wait with
                    | Returns _ => [EvKillall]
                    | Raises _ => []
                    end
    | Raises _ => []
    end
  else [EvKillall].

(** How [stop_emulator] ends. *)
Definition stop_emulator_outcome (has_process : bool)
    (answers : outcome unit * outcome unit * outcome unit) : outcome unit :=
  let '(terminate, wait, killall) := answers in
  let first_raise :=
    if has_process then
      match terminate with
      | Raises e => Some e
      | Returns _ => match wait with
                     | Raises e => Some e
                     | Returns _ => match killall with
                                    | Raises e => Some e
                                    | Returns _ => None
                                    end
                     end
      end
    else match killall with
         | Raises e => Some e
         | Returns _ => None
         end in
  match first_raise with
  | Some e => if is_Exception e then Returns tt else Raises e
  | None => Returns tt
  end.

(** How many times a trace ran [make]. *)
Fixpoint builds (evs : list event) : nat :=
  match evs with
  | [] => 0
  | EvMakeAll :: rest => S (builds rest)
  | _ :: rest => builds rest
  end.

(** Every call answers; the listing holds two screenshots and a text
    file. *)
Definition steady_loop : X16DevLoop.LoopEnv :=
  X16DevLoop.mkLoopEnv
    (fun _ => "2024-01-01-12-00-00") (fun _ => "2024-01-01T12:00:00")
    (fun _ => Returns tt) (fun _ => Returns (0, ""))
    (fun _ => Returns tt) (fun _ => Returns tt) (fun _ => Returns tt)
    (fun _ => Returns tt) (fun _ => Returns tt)
    (fun _ => Returns tt)
    (fun _ => Returns ["old.png"; "notes.txt"; "new.png"])
    (fun f => if (f =? "new.png")%string then 200 else 100)
    (fun _ => Returns tt) (fun _ => (Returns tt, Returns tt, Returns tt))
    (fun _ => Returns tt) (fun _ => Returns tt)
    (Returns tt, Returns tt, Returns tt).

(** The build fails in the first cycle. *)
Definition broken_build_loop : X16DevLoop.LoopEnv :=
  X16DevLoop.mkLoopEnv
    (fun _ => "2024-01-01-12-00-00") (fun _ => "2024-01-01T12:00:00")
    (fun _ => Returns tt) (fun _ => Returns (2, "Error: Symbol undefined"))
    (fun _ => Returns tt) (fun _ => Returns tt) (fun _ => Returns tt)
    (fun _ => Returns tt) (fun _ => Returns tt)
    (fun _ => Returns tt) (fun _ => Returns []) (fun _ => 0)
    (fun _ => Returns tt) (fun _ => (Returns tt, Returns tt, Returns tt))
    (fun _ => Returns tt) (fun _ => Returns tt)
    (Returns tt, Returns tt, Returns tt).

(** The emulator ignores terminate: wait gives up after five seconds. *)
Definition deaf_emulator
  : outcome unit * outcome unit * outcome unit :=
  (Returns tt, Raises (TimeoutExpired "timed out after 5 seconds"),
   Returns tt).

(** The build fails, and Ctrl-C arrives while the clean-up runs
    killall. *)
Definition interrupted_cleanup_loop : X16DevLoop.LoopEnv :=
  X16DevLoop.mkLoopEnv
    (fun _ => "2024-01-01-12-00-00") (fun _ => "2024-01-01T12:00:00")
    (fun _ => Returns tt) (fun _ => Returns (2, "Error: Symbol undefined"))
    (fun _ => Returns tt) (fun _ => Returns tt) (fun _ => Returns tt)
    (fun _ => Returns tt) (fun _ => Returns tt)
    (fun _ => Returns tt) (fun _ => Returns []) (fun _ => 0)
    (fun _ => Returns tt) (fun _ => (Returns tt, Returns tt, Returns tt))
    (fun _ => Returns tt) (fun _ => Returns tt)
    (Returns tt, Returns tt, Raises KeyboardInterrupt).

(** The signal handler of the script turns SIGINT into [sys.exit(0)]:
    here it fires during the ten seconds of running. *)
Definition exiting_loop : X16DevLoop.LoopEnv :=
  X16DevLoop.mkLoopEnv
    (fun _ => "2024-01-01-12-00-00") (fun _ => "2024-01-01T12:00:00")
    (fun _ => Returns tt) (fun _ => Returns (0, ""))
    (fun _ => Returns tt) (fun _ => Returns tt) (fun _ => Returns tt)
    (fun _ => Returns tt) (fun _ => Raises SystemExit)
    (fun _ => Returns tt) (fun _ => Returns ["shot.png"]) (fun _ => 0)
    (fun _ => Returns tt) (fun _ => (Returns tt, Returns tt, Returns tt))
    (fun _ => Returns tt) (fun _ => Returns tt)
    (Returns tt, Returns tt, Returns tt).

(** * Properties *)

Ltac run_monad :=
  cbv [bind call emit lift ret modify raise get try_except py_sleep
       capture_screenshot any_exn dispatch json_dump_to exec
       fst snd data trace] in *.

Lemma with_captures_nil (d : Session) : with_captures [] d = d.
Proof. destruct d; unfold with_captures; cbn. now rewrite app_nil_r. Qed.

Lemma with_captures_cons (c : Capture) (caps : list Capture) (d : Session) :
  with_captures caps (append_screenshot c d) = with_captures (c :: caps) d.
Proof.
  unfold with_captures, append_screenshot; cbn.
  now rewrite <- app_assoc.
Qed.

Section CaptureLoop.
Variables (self : X16DevTool) (w : RunEnv) (duration : Z).

Lemma capture_step_eq (i : nat) (prev t : Z) (s : St Session) :
  capture_step self w duration i prev t s =
  match round_of w duration i prev t with
  | Skipped => (Returns tt, s)
  | BadSleep =>
      (Raises (OtherException "sleep length must be non-negative"), s)
  | SleepRaised e =>
      (Raises e, mkSt (data s) (trace s ++ [EvSleep (t - prev)]))
  | Captured =>
      (Returns tt,
       mkSt (append_screenshot
               (mkCapture t (screenshot_path self w i) (i + 1)) (data s))
            (trace s ++ [EvSleep (t - prev);
                         EvScreencapture (screenshot_path self w i)]))
  | CaptureFailed =>
      (Returns tt,
       mkSt (data s)
            (trace s ++ [EvSleep (t - prev);
                         EvScreencapture (screenshot_path self w i)]))
  | CaptureRaised e =>
      (Raises e,
       mkSt (data s)
            (trace s ++ [EvSleep (t - prev);
                         EvScreencapture (screenshot_path self w i)]))
  end.
Proof.
  unfold capture_step, round_of, screenshot_path.
  destruct (t <=? duration); [|reflexivity].
  run_monad.
  destruct (t - prev <? 0); [reflexivity|].
  destruct (re_sleep_step w i) as [[]|e]; [|reflexivity].
  destruct (re_screencapture w i) as [[]|e]; cbn.
  - now rewrite <- app_assoc.
  - destruct (is_Exception e); now rewrite <- app_assoc.
Qed.

Lemma capture_loop_eq (times : list Z) :
  forall (i : nat) (prev : Z) (s : St Session),
    capture_loop self w duration i prev times s =
    let '(o, caps, evs) := loop_summary self w duration i prev times in
    (o, mkSt (with_captures caps (data s)) (trace s ++ evs)).
Proof.
  induction times as [|t rest IH]; intros i prev s; cbn [capture_loop].
  - cbn. rewrite with_captures_nil, app_nil_r. now destruct s.
  - unfold bind. rewrite capture_step_eq. cbn [loop_summary].
    destruct (loop_summary self w duration (S i) t rest)
      as [[o caps] evs] eqn:E.
    destruct (round_of w duration i prev t);
      rewrite ?IH, ?E; cbn [data trace];
      rewrite ?with_captures_cons, ?with_captures_nil, <- ?app_assoc;
      try reflexivity.
    rewrite app_nil_r. now destruct s.
Qed.

Lemma loop_summary_events (times : list Z) :
  forall i prev,
    Forall loop_event (snd (loop_summary self w duration i prev times)).
Proof.
  induction times as [|t rest IH]; intros i prev; cbn [loop_summary].
  - constructor.
  - specialize (IH (S i) t).
    destruct (loop_summary self w duration (S i) t rest) as [[o caps] evs].
    destruct (round_of w duration i prev t); cbn in *;
      repeat constructor; assumption.
Qed.


End CaptureLoop.

(** ** Whole runs, path by path *)

(** Symbolic execution of [run_with_schedule]: split on every answer of
    the world, summarising the loop by [loop_summary]. *)
Ltac run_open :=
  unfold run_emulator_with_capture, run_with_schedule, run_body, try_block,
         on_exception, kill_emulator in *;
  run_monad; change (5 <? 0) with false in *; cbv beta iota in *.

(** Reads of the dictionary that the program branches on. *)
Ltac session_fields :=
  cbn [gif_recording set_status set_emulator_output set_emulator_stderr
       set_emulator_pid set_gif_recording set_program_exists set_error
       with_captures init_session] in *.

(** The call the program is waiting for: the innermost scrutinee at the
    head of a run. *)
Ltac pending t :=
  lazymatch t with
  | (let (_, _) := ?x in _) => pending x
  | match ?x with Returns _ => _ | Raises _ => _ end => pending x
  | match ?x with Some _ => _ | None => _ end => pending x
  | (if ?x then _ else _) => pending x
  | (let (_, _) := ?x in _) _ => pending x
  | match ?x with Returns _ => _ | Raises _ => _ end _ => pending x
  | match ?x with Some _ => _ | None => _ end _ => pending x
  | (if ?x then _ else _) _ => pending x
  | _ => t
  end.

Ltac run_split :=
  lazymatch goal with
  | |- ?l = _ -> _ =>
      let x := pending l in
      lazymatch x with
      | capture_loop ?self ?w ?d ?i ?p ?ts ?s =>
          rewrite (capture_loop_eq self w d ts i p s);
          let E := fresh "Eloop" in
          let o := fresh "o" in
          let caps := fresh "caps" in
          let evs := fresh "evs" in
          destruct (loop_summary self w d i p ts) as [[o caps] evs] eqn:E
      | (_, _) => fail
      | l => fail
      | _ => let E := fresh "E" in destruct x eqn:E
      end
  end;
  cbv beta iota delta [fst snd data trace] in *;
  session_fields.

Ltac run_cases := run_open; repeat run_split.

Lemma persisted_sessions_app (a b : list event) :
  persisted_sessions (a ++ b)
  = (persisted_sessions a ++ persisted_sessions b)%list.
Proof.
  induction a as [|ev a IH]; [reflexivity|].
  destruct ev; cbn; try exact IH.
  destruct content; cbn; try exact IH. now rewrite IH.
Qed.

Lemma loop_persists_nothing (evs : list event) :
  Forall loop_event evs -> persisted_sessions evs = [].
Proof.
  induction 1 as [|ev evs Hev _ IH]; [reflexivity|].
  destruct ev; cbn in *; tauto.
Qed.

Lemma loop_summary_calls self w duration i prev times o caps evs :
  loop_summary self w duration i prev times = (o, caps, evs) ->
  Forall loop_event evs.
Proof.
  intros E. pose proof (loop_summary_events self w duration times i prev) as H.
  now rewrite E in H.
Qed.

Ltac loop_facts :=
  repeat match goal with
  | E : loop_summary _ _ _ _ _ _ = (_, _, ?evs) |- _ =>
      lazymatch goal with
      | _ : Forall loop_event evs |- _ => fail
      | _ => pose proof (loop_summary_calls _ _ _ _ _ _ _ _ _ E)
      end
  end.

Ltac persisted_norm :=
  repeat first
    [ progress cbn [persisted_sessions app]
    | rewrite persisted_sessions_app
    | rewrite loop_persists_nothing by assumption ].

Ltac in_list := cbn; repeat first [left; reflexivity | right].

(** C10.  A Session that [run_emulator_with_capture] returns, and any
    Session it wrote to the session artifact, carries one of the statuses
    program_not_found, emulator_exited_early, completed, force_killed,
    error: the placeholder "unknown" is never seen.  This holds for every
    schedule and every behaviour of the outside world. *)
Theorem returned_status_terminal (times : list Z) (self : X16DevTool)
    (w : RunEnv) (program : string) (duration : Z) (s : Session)
    (st : St Session) :
  run_with_schedule times self w program duration = (Returns s, st) ->
  In (status s) terminal_statuses
  /\ status s <> unknown
  /\ Forall (fun s' => In (status s') terminal_statuses
                       /\ status s' <> unknown)
            (persisted_sessions (trace st)).
Proof.
  run_cases; intros H; inversion H; subst; clear H; loop_facts;
    cbn [trace]; persisted_norm;
    (split; [in_list | split; [cbn; discriminate |]]);
    repeat (apply Forall_cons; [split; [in_list | cbn; discriminate] |]);
    apply Forall_nil.
Qed.

(** A run that hands back a Session of the calm world. *)
Lemma returned_status_terminal_witness :
  exists s st,
    run_with_schedule screenshot_times demo_tool calm_world "pacman.prg" 10
      = (Returns s, st)
    /\ In (status s) terminal_statuses
    /\ status s <> unknown
    /\ Forall (fun s' => In (status s') terminal_statuses
                         /\ status s' <> unknown)
              (persisted_sessions (trace st)).
Proof.
  eexists. eexists. split; [vm_compute; reflexivity|].
  apply (returned_status_terminal screenshot_times demo_tool calm_world
           "pacman.prg" 10).
  vm_compute; reflexivity.
Defined.

(** ** The stop step *)

Ltac find_in :=
  lazymatch goal with
  | |- In _ (_ :: _) => first [left; reflexivity | right; find_in]
  | |- In _ (_ ++ _) =>
      apply in_or_app; first [left; find_in | right; find_in]
  end.

Ltac not_in_trace H :=
  repeat first [ rewrite in_app_iff in H | progress cbn [In] in H ];
  intuition discriminate.

(** A run can return without any stop command: the emulator is spawned,
    the probe finds it already dead, and [run_emulator_with_capture]
    returns from the early-exit branch. *)
Lemma stop_step_not_always_run :
  ~ (forall (self : X16DevTool) (w : RunEnv) (program : string)
            (duration : Z) (s : Session) (st : St Session),
        run_emulator_with_capture self w program duration = (Returns s, st) ->
        emulator_pid s <> None ->
        In EvPkill (trace st)).
Proof.
  intros H.
  pose proof (H demo_tool early_exit_world "pacman.prg" 10) as H'.
  vm_compute in H'.
  specialize (H' _ _ eq_refl).
  assert (Hpid : Some 4242 = None -> False) by discriminate.
  specialize (H' Hpid).
  repeat (destruct H' as [H'|H']; [discriminate|]). exact H'.
Qed.

Lemma stop_calls_app (a b : list event) :
  stop_calls (a ++ b) = (stop_calls a + stop_calls b)%nat.
Proof.
  induction a as [|ev a IH]; [reflexivity|].
  destruct ev; cbn; try exact IH. now rewrite IH.
Qed.

Lemma loop_never_stops (evs : list event) :
  Forall loop_event evs -> stop_calls evs = 0%nat.
Proof.
  induction 1 as [|ev evs Hev _ IH]; [reflexivity|].
  destruct ev; cbn in *; tauto.
Qed.

Ltac stop_calls_norm :=
  repeat first
    [ progress cbn [stop_calls app Nat.add]
    | rewrite stop_calls_app
    | rewrite loop_never_stops by assumption ].

(** The runs that return.  When the emulator was spawned and the method
    returns, [pkill x16emu] was issued before the return exactly when the
    status is not emulator_exited_early: on the normal path and whenever
    the probe, the capture schedule or the drain raised an Exception.  It
    is issued once.  Only the early-exit branch, where the process is
    already gone, returns without a stop command. *)
Theorem stop_step_unless_exited_early (times : list Z) (self : X16DevTool)
    (w : RunEnv) (program : string) (duration : Z) (s : Session)
    (st : St Session) :
  run_with_schedule times self w program duration = (Returns s, st) ->
  emulator_pid s <> None ->
  (In EvPkill (trace st) <-> status s <> emulator_exited_early)
  /\ stop_calls (trace st)
     = match status s with
       | emulator_exited_early => 0%nat
       | _ => 1%nat
       end.
Proof.
  run_cases; intros H; inversion H; subst; clear H; loop_facts;
    cbn [trace]; intros Hpid;
    try (exfalso; apply Hpid; reflexivity);
    (split;
     [ split;
       [ intros Hin; first [ cbn; discriminate | exfalso; not_in_trace Hin ]
       | intros Hst; first [ find_in | exfalso; apply Hst; reflexivity ] ]
     | stop_calls_norm; cbn [status set_status set_error set_emulator_output
                             set_emulator_stderr];
       rewrite ?Nat.add_0_r; reflexivity ]).
Qed.

(** A completed run of the calm world. *)
Lemma stop_step_unless_exited_early_witness :
  exists s st,
    run_with_schedule screenshot_times demo_tool calm_world "pacman.prg" 10
      = (Returns s, st)
    /\ emulator_pid s <> None
    /\ (In EvPkill (trace st) <-> status s <> emulator_exited_early)
    /\ stop_calls (trace st) = 1%nat.
Proof.
  eexists. eexists. split; [vm_compute; reflexivity|].
  split; [discriminate|].
  apply (stop_step_unless_exited_early screenshot_times demo_tool calm_world
           "pacman.prg" 10).
  - vm_compute; reflexivity.
  - discriminate.
Defined.

(** C1 on the code: the stop step is not reached when the run is
    interrupted.  The outer handler is [except Exception], which a
    [KeyboardInterrupt] or a [SystemExit] passes.  Whenever the emulator
    was spawned and the method is left by an exception before its closing
    write, that exception is such an interrupt, the process id of the
    emulator is in the Session, and no [pkill x16emu] was issued and no
    Session written: the emulator is left running. *)
Theorem interrupt_leaves_the_emulator_running (times : list Z)
    (self : X16DevTool) (w : RunEnv) (prog : string) (dur : Z) (pid : Z)
    (e : exn) (st : St Session) :
  re_popen w = Returns pid ->
  run_with_schedule times self w prog dur = (Raises e, st) ->
  ~ In (EvWriteFailed (session_file self)) (trace st) ->
  is_Exception e = false
  /\ emulator_pid (data st) = Some pid
  /\ In (EvPopen (emulator_cmd self prog)) (trace st)
  /\ stop_calls (trace st) = 0%nat
  /\ persisted_sessions (trace st) = [].
Proof.
  intros Hpid.
  run_cases; intros H; inversion H; subst; clear H; loop_facts;
    cbn [trace data]; intros Hw;
    try (exfalso; apply Hw; find_in);
    try congruence.
  all: repeat split.
  all: try assumption; try reflexivity.
  all: try congruence.
  all: try find_in.
  all: try (stop_calls_norm; reflexivity).
  all: try (persisted_norm; reflexivity).
  all: injection Hpid as ->; reflexivity.
Qed.

(** Ctrl-C during the sleep before the second capture. *)
Lemma interrupt_leaves_the_emulator_running_witness :
  exists st,
    run_with_schedule screenshot_times demo_tool interrupted_world
      "pacman.prg" 10 = (Raises KeyboardInterrupt, st)
    /\ is_Exception KeyboardInterrupt = false
    /\ emulator_pid (data st) = Some 4242
    /\ In (EvPopen (emulator_cmd demo_tool "pacman.prg")) (trace st)
    /\ stop_calls (trace st) = 0%nat
    /\ persisted_sessions (trace st) = [].
Proof.
  eexists. split; [vm_compute; reflexivity|].
  eapply (interrupt_leaves_the_emulator_running screenshot_times demo_tool
            interrupted_world "pacman.prg" 10 4242).
  - reflexivity.
  - vm_compute; reflexivity.
  - vm_compute. intros H.
    repeat (destruct H as [H|H]; [discriminate|]). exact H.
Defined.

(** The same run, call by call: the interrupt passes the outer handler,
    the method does not return, and the emulator it spawned is not
    stopped. *)
Example interrupt_skips_the_stop_step :
  let r := run_emulator_with_capture demo_tool interrupted_world
             "pacman.prg" 10 in
  fst r = Raises KeyboardInterrupt
  /\ emulator_pid (data (snd r)) = Some 4242
  /\ ~ In EvPkill (trace (snd r))
  /\ persisted_sessions (trace (snd r)) = [].
Proof.
  vm_compute. repeat split; try reflexivity.
  intros H. repeat (destruct H as [H|H]; [discriminate|]). exact H.
Qed.

(** ** Persisting the Session *)


(** C2 on the code: with the program file missing the method returns a
    program_not_found Session and writes nothing; with the emulator dead at
    the probe it returns an emulator_exited_early Session and writes
    nothing; the run that completes does write its Session. *)
Theorem early_returns_skip_the_write :
  (let r := run_emulator_with_capture demo_tool not_found_world
              "pacman.prg" 10 in
   (exists s, fst r = Returns s /\ status s = program_not_found)
   /\ trace (snd r) = [EvExists "./pacman.prg"]
   /\ persisted_sessions (trace (snd r)) = [])
  /\ (let r := run_emulator_with_capture demo_tool early_exit_world
                 "pacman.prg" 10 in
      (exists s, fst r = Returns s /\ status s = emulator_exited_early)
      /\ persisted_sessions (trace (snd r)) = [])
  /\ (let r := run_emulator_with_capture demo_tool calm_world
                 "pacman.prg" 10 in
      exists s, fst r = Returns s /\ status s = completed
                /\ persisted_sessions (trace (snd r)) = [s]).
Proof.
  vm_compute. repeat split; eexists; repeat split.
Qed.

(** ** The early exit *)

(** A terminated emulator alone does not give the early-exit Session:
    the drain [communicate()] sits inside the outer [try], so when it
    raises the run does not end with status emulator_exited_early. *)
Lemma early_exit_drain_may_fail :
  ~ (forall (times : list Z) (self : X16DevTool) (w : RunEnv)
            (prog : string) (dur pid rc : Z),
        re_program_exists w = true ->
        re_popen w = Returns pid ->
        re_sleep_grace w = Returns tt ->
        re_poll w = Returns (Some rc) ->
        exists s st,
          run_with_schedule times self w prog dur = (Returns s, st)
          /\ status s = emulator_exited_early
          /\ screenshots s = []).
Proof.
  intros H.
  destruct (H screenshot_times demo_tool drain_fails_world "pacman.prg" 10
              4242 1 eq_refl eq_refl eq_refl eq_refl)
    as (s & st & Hrun & Hstatus & _).
  vm_compute in Hrun. injection Hrun as <- _. discriminate Hstatus.
Qed.

(** That run, call by call: the failure of the drain is caught by
    [except Exception], the status is error, pkill is issued and the
    Session is written. *)
Example failed_drain_ends_in_error :
  let r := run_emulator_with_capture demo_tool drain_fails_world
             "pacman.prg" 10 in
  exists s,
    fst r = Returns s
    /\ status s = error
    /\ error_msg s = Some "I/O operation on closed file"
    /\ screenshots s = []
    /\ stop_calls (trace (snd r)) = 1%nat
    /\ persisted_sessions (trace (snd r)) = [s].
Proof.
  vm_compute. eexists. repeat split.
Qed.

(** C8, amended.  When the program exists, the spawn succeeds, the probe
    after the 5 s wait finds the emulator terminated and the drain of its
    output returns, the method stores the drained stdout and stderr in
    the Session and returns it with status emulator_exited_early and an
    empty capture list, whatever the schedule; no capture (and nothing
    else) is attempted after the drain. *)
Theorem exited_early_returns_at_once (times : list Z) (self : X16DevTool)
    (w : RunEnv) (program : string) (duration : Z) (pid rc : Z)
    (out err : string) :
  re_program_exists w = true ->
  re_popen w = Returns pid ->
  re_sleep_grace w = Returns tt ->
  re_poll w = Returns (Some rc) ->
  re_communicate_early w = Returns (out, err) ->
  exists s st,
    run_with_schedule times self w program duration = (Returns s, st)
    /\ status s = emulator_exited_early
    /\ screenshots s = []
    /\ emulator_output s = out
    /\ emulator_stderr s = err
    /\ emulator_pid s = Some pid
    /\ trace st = [EvExists (program_path self program);
                   EvPopen (emulator_cmd self program);
                   EvSleep 5; EvPoll; EvCommunicate None].
Proof.
  intros Hprog Hpopen Hsleep Hpoll Hdrain.
  run_open. rewrite Hprog. cbv beta iota delta [negb].
  rewrite Hpopen. cbv beta iota. rewrite Hsleep. cbv beta iota.
  rewrite Hpoll. cbv beta iota. rewrite Hdrain. cbv beta iota.
  eexists. eexists. split; [reflexivity|].
  repeat split.
Qed.

Lemma exited_early_returns_at_once_witness :
  exists s st,
    run_with_schedule [2; 4; 6] demo_tool early_exit_world "pacman.prg" 10
      = (Returns s, st)
    /\ status s = emulator_exited_early
    /\ screenshots s = []
    /\ emulator_output s = ""
    /\ emulator_stderr s = "Error: cannot open ROM"
    /\ emulator_pid s = Some 4242
    /\ trace st = [EvExists (program_path demo_tool "pacman.prg");
                   EvPopen (emulator_cmd demo_tool "pacman.prg");
                   EvSleep 5; EvPoll; EvCommunicate None].
Proof.
  apply (exited_early_returns_at_once [2; 4; 6] demo_tool early_exit_world
           "pacman.prg" 10 4242 1 "" "Error: cannot open ROM");
    reflexivity.
Defined.

(** ** The recording reference *)







(** ** Step indices of the captures *)






(** The run of the counterexample: positions 2..5 of the schedule. *)
Example first_capture_failed_steps :
  exists s st,
    run_emulator_with_capture demo_tool first_capture_fails_world
      "pacman.prg" 10 = (Returns s, st)
    /\ map step (screenshots s) = [2; 3; 4; 5]%nat
    /\ status s = completed.
Proof.
  eexists. eexists. split; [vm_compute; reflexivity|]. repeat split.
Qed.

(** With every capture succeeding the steps of the calm world are 1..5. *)
Example calm_steps :
  exists s st,
    run_emulator_with_capture demo_tool calm_world "pacman.prg" 10
      = (Returns s, st)
    /\ map step (screenshots s) = seq 1 5
    /\ map time (screenshots s) = screenshot_times
    /\ status s = completed.
Proof.
  eexists. eexists. split; [vm_compute; reflexivity|]. repeat split.
Qed.

(** ** Timing of the schedule *)

Lemma sleeps_of_app (a b : list event) :
  sleeps_of (a ++ b) = (sleeps_of a ++ sleeps_of b)%list.
Proof.
  induction a as [|ev a IH]; [reflexivity|].
  destruct ev; cbn; try exact IH. now rewrite IH.
Qed.

(** A loop that runs to its end slept, before each capture, the distance
    between the offset and its predecessor in the schedule. *)
Lemma loop_summary_sleeps (self : X16DevTool) (w : RunEnv) (duration : Z)
    (times : list Z) :
  forall i prev u caps evs,
    loop_summary self w duration i prev times = (Returns u, caps, evs) ->
    sleeps_of evs = scheduled_sleeps duration prev times.
Proof.
  induction times as [|t rest IH]; intros i prev u caps evs;
    cbn [loop_summary scheduled_sleeps].
  - intros E. now inversion E.
  - specialize (IH (S i) t).
    destruct (loop_summary self w duration (S i) t rest)
      as [[o caps'] evs'].
    unfold round_of.
    destruct (t <=? duration).
    + destruct (t - prev <? 0); [discriminate|].
      destruct (re_sleep_step w i); [|discriminate].
      destruct (re_screencapture w i) as [|e].
      * intros E. inversion E; subst. cbn. f_equal. eapply IH. reflexivity.
      * destruct (is_Exception e); [|discriminate].
        intros E. inversion E; subst. cbn. f_equal. eapply IH. reflexivity.
    + intros E. inversion E; subst. cbn. eapply IH. reflexivity.
Qed.

Ltac sleeps_norm :=
  repeat first
    [ progress cbn [sleeps_of app]
    | rewrite sleeps_of_app ].

(** C6, as stated, fails: every screencapture call takes one second, and
    the loop still sleeps the plain differences 1, 2, 2, 3, 2 of the
    offsets, not the differences shortened by the elapsed second. *)
Lemma sleeps_ignore_elapsed_time :
  ~ (forall (self : X16DevTool) (w : RunEnv) (program : string)
            (duration : Z) (s : Session) (st : St Session),
        run_emulator_with_capture self w program duration = (Returns s, st) ->
        status s = completed ->
        sleeps_of (trace st)
        = (5 :: claimed_sleeps w duration 0 0 0 screenshot_times
             ++ final_sleeps duration screenshot_times)%list).
Proof.
  intros H.
  pose proof (H demo_tool slow_capture_world "pacman.prg" 10) as H'.
  vm_compute in H'.
  specialize (H' _ _ eq_refl eq_refl). discriminate H'.
Qed.

(** C6, amended.  In a run that reaches the stop step the sleeps are: the
    5 s wait after the spawn; then, before each capture whose offset is
    within the duration, the offset minus the previous offset of the
    schedule; then the remainder sleep.  The time spent in the capture
    calls ([re_capture_secs]) does not enter: nothing is subtracted for
    it. *)
Theorem sleeps_are_offset_differences (times : list Z) (self : X16DevTool)
    (w : RunEnv) (program : string) (duration : Z) (s : Session)
    (st : St Session) :
  run_with_schedule times self w program duration = (Returns s, st) ->
  status s = completed \/ status s = force_killed ->
  sleeps_of (trace st)
  = (5 :: scheduled_sleeps duration 0 times
       ++ final_sleeps duration times)%list.
Proof.
  run_cases; intros H; inversion H; subst; clear H;
    (intros [Hst|Hst]; try discriminate Hst); clear Hst;
    cbn [trace]; sleeps_norm;
    try match goal with
        | E : loop_summary _ _ _ _ _ _ = (Returns _, _, _) |- _ =>
            rewrite (loop_summary_sleeps _ _ _ _ _ _ _ _ _ E)
        end;
    unfold final_sleeps;
    repeat match goal with
           | E : _ = _ |- _ => rewrite E
           end;
    rewrite ?app_nil_r; reflexivity.
Qed.

Lemma sleeps_are_offset_differences_witness :
  exists s st,
    run_with_schedule screenshot_times demo_tool slow_capture_world
      "pacman.prg" 12 = (Returns s, st)
    /\ (status s = completed \/ status s = force_killed)
    /\ sleeps_of (trace st) = [5; 1; 2; 2; 3; 2; 2].
Proof.
  eexists. eexists. split; [vm_compute; reflexivity|].
  split; [left; reflexivity|].
  eapply (sleeps_are_offset_differences screenshot_times demo_tool
            slow_capture_world "pacman.prg" 12).
  - vm_compute; reflexivity.
  - left; reflexivity.
Defined.

(** With one-second captures the drift of the source's loop adds up: the
    captures scheduled for offsets 1, 3, 5, 8, 10 fire at 1, 4, 7, 11 and
    14 seconds after the loop started. *)
Example drift_accumulates :
  let r := run_emulator_with_capture demo_tool slow_capture_world
             "pacman.prg" 10 in
  fire_times slow_capture_world (-5) 0 (trace (snd r)) = [1; 4; 7; 11; 14]
  /\ (exists s, fst r = Returns s
                 /\ map time (screenshots s) = [1; 3; 5; 8; 10]).
Proof.
  vm_compute. split; [reflexivity|]. eexists. split; reflexivity.
Qed.

(** ** The remainder sleep *)

(** C5 on the code: with a duration of 7 the captures at offsets 1, 3 and
    5 are executed and the method goes straight on to the drain and the
    stop: the sleeps of the run are 5 (grace), 1, 2, 2, with no remainder
    sleep, because the remainder is taken from the largest offset of the
    whole schedule (7 - 10 < 0).  The emulator is stopped 2 seconds short
    of the requested duration; the claimed remainder is 7 - 5 = 2. *)
Theorem no_remainder_sleep_below_largest_offset :
  let r := run_emulator_with_capture demo_tool calm_world "pacman.prg" 7 in
  (exists s, fst r = Returns s /\ status s = completed
             /\ map time (screenshots s) = [1; 3; 5])
  /\ sleeps_of (trace (snd r)) = [5; 1; 2; 2]
  /\ final_sleeps 7 screenshot_times = []
  /\ last_executed_offset 7 0 screenshot_times = 5
  /\ claimed_final_sleep 7 screenshot_times = 2.
Proof.
  vm_compute. split; [eexists; repeat split | repeat split].
Qed.

(** From the largest offset on, the remainder sleep of the code is the
    claimed one. *)
Lemma remainder_sleep_from_largest_offset (duration : Z) :
  10 <= duration ->
  final_sleeps duration screenshot_times
  = if 0 <? claimed_final_sleep duration screenshot_times
    then [claimed_final_sleep duration screenshot_times] else [].
Proof.
  intros Hd. unfold final_sleeps, claimed_final_sleep.
  cbn [py_max screenshot_times fold_left last_executed_offset].
  repeat match goal with
         | |- context [?t <=? duration] =>
             destruct (Z.leb_spec t duration); [|lia]
         end.
  change (Z.max (Z.max (Z.max (Z.max 1 3) 5) 8) 10) with 10.
  destruct (Z.ltb_spec 0 (duration - 10)).
  - rewrite Z.max_r by lia.
    destruct (Z.ltb_spec 0 (duration - 10)); [reflexivity|lia].
  - rewrite Z.max_l by lia. reflexivity.
Qed.


(** ** The analysis *)

Lemma with_issues_nil (a : Analysis) : with_issues [] a = a.
Proof. destruct a; unfold with_issues; cbn. now rewrite app_nil_r. Qed.

Lemma with_issues_add (msg : string) (msgs : list string) (a : Analysis) :
  with_issues msgs (add_issue msg a) = with_issues (msg :: msgs) a.
Proof.
  unfold with_issues, add_issue; cbn. now rewrite <- app_assoc.
Qed.

Lemma check_screenshots_eq (w : AnalysisEnv) (shots : list Capture) :
  forall s : St Analysis,
    check_screenshots w shots s
    = (Returns tt,
       mkSt (with_issues (screenshot_issues w shots) (data s)) (trace s)).
Proof.
  induction shots as [|c rest IH]; intros s;
    cbn [check_screenshots screenshot_issues].
  - rewrite with_issues_nil. now destruct s.
  - unfold bind.
    destruct (ae_exists w (file c)); cbn [app].
    + destruct (ae_size w (file c) <? 1000); cbn [app].
      * unfold modify. rewrite IH. cbn [data trace].
        now rewrite with_issues_add.
      * destruct (20000000 <? ae_size w (file c)); cbn [app].
        -- unfold modify. rewrite IH. cbn [data trace].
           now rewrite with_issues_add.
        -- unfold ret. now rewrite IH.
    + unfold ret. now rewrite IH.
Qed.

Lemma screenshot_issues_prefix (w : AnalysisEnv) (shots : list Capture) :
  Forall (fun msg => startswith "Screenshot " msg = true)
         (screenshot_issues w shots).
Proof.
  induction shots as [|c rest IH]; cbn [screenshot_issues]; [constructor|].
  apply Forall_app. split; [|exact IH].
  destruct (ae_exists w (file c)); [|constructor].
  destruct (ae_size w (file c) <? 1000);
    [constructor; [reflexivity | constructor]|].
  destruct (20000000 <? ae_size w (file c));
    [constructor; [reflexivity | constructor] | constructor].
Qed.

(** The issue list of the analysis, rule by rule. *)
Lemma analyze_session_issues (self : X16DevTool) (w : AnalysisEnv)
    (session_data : Session) (a : Analysis) (st : St Analysis) :
  analyze_session self w session_data = (Returns a, st) ->
  an_issues_detected a
  = ((if (List.length (screenshots session_data) =? 0)%nat
      then ["No screenshots captured"] else [])
     ++ (if Status_eqb (status session_data) error
         then [("Emulator error: " ++ error_or_unknown session_data)%string]
         else [])
     ++ (if contains "error" (lower (emulator_output session_data))
         then ["Emulator reported errors"] else [])
     ++ screenshot_issues w (screenshots session_data))%list.
Proof.
  unfold analyze_session, analyze_body. run_monad.
  destruct (List.length (screenshots session_data) =? 0)%nat;
    destruct (Status_eqb (status session_data) error);
    destruct (contains "error" (lower (emulator_output session_data)));
    rewrite check_screenshots_eq; cbn [data trace];
    destruct (ae_write w); intros H; inversion H; subst; clear H;
    reflexivity.
Qed.

(** C7, as stated, fails: the emulator complained on stderr only, and the
    analysis does not contain the "Emulator reported errors" issue. *)
Lemma stderr_errors_go_unreported :
  ~ (forall (self : X16DevTool) (w : AnalysisEnv) (session_data : Session)
            (a : Analysis) (st : St Analysis),
        analyze_session self w session_data = (Returns a, st) ->
        contains "error" (lower (emulator_output session_data)) = true
        \/ contains "error" (lower (emulator_stderr session_data)) = true ->
        In "Emulator reported errors" (an_issues_detected a)).
Proof.
  intros H.
  pose proof (H demo_tool quiet_files stderr_only_session) as H'.
  vm_compute in H'.
  specialize (H' _ _ eq_refl (or_intror eq_refl)).
  destruct H' as [H'|H']; [discriminate H'|exact H'].
Qed.

(** C7, amended.  The analysis that [analyze_session] returns contains the
    "Emulator reported errors" issue exactly when the captured stdout
    text ([emulator_output]) contains "error" case-insensitively; the
    stderr text is not inspected. *)
Theorem stdout_errors_are_reported (self : X16DevTool) (w : AnalysisEnv)
    (session_data : Session) (a : Analysis) (st : St Analysis) :
  analyze_session self w session_data = (Returns a, st) ->
  (In "Emulator reported errors" (an_issues_detected a)
   <-> contains "error" (lower (emulator_output session_data)) = true).
Proof.
  intros Hrun. rewrite (analyze_session_issues _ _ _ _ _ Hrun).
  rewrite !in_app_iff. split.
  - intros [Hin | [Hin | [Hin | Hin]]].
    + destruct (List.length (screenshots session_data) =? 0)%nat;
        [destruct Hin as [Hin|[]]; discriminate Hin | destruct Hin].
    + destruct (Status_eqb (status session_data) error);
        [destruct Hin as [Hin|[]]; discriminate Hin | destruct Hin].
    + destruct (contains "error" (lower (emulator_output session_data)));
        [reflexivity | destruct Hin].
    + pose proof (screenshot_issues_prefix w (screenshots session_data))
        as Hpre.
      rewrite Forall_forall in Hpre. specialize (Hpre _ Hin).
      discriminate Hpre.
  - intros ->. right. right. left. left. reflexivity.
Qed.

Lemma stdout_errors_are_reported_witness :
  exists a st,
    analyze_session demo_tool quiet_files stdout_error_session
      = (Returns a, st)
    /\ contains "error" (lower (emulator_output stdout_error_session)) = true
    /\ In "Emulator reported errors" (an_issues_detected a).
Proof.
  eexists. eexists. split; [vm_compute; reflexivity|].
  split; [reflexivity|].
  eapply (stdout_errors_are_reported demo_tool quiet_files
            stdout_error_session).
  - vm_compute; reflexivity.
  - reflexivity.
Defined.

(** The analysis of the Session of the counterexample. *)
Example stderr_only_analysis :
  exists a st,
    analyze_session demo_tool quiet_files stderr_only_session
      = (Returns a, st)
    /\ an_issues_detected a = ["No screenshots captured"]
    /\ an_recommendations a = ["Check screencapture permissions"].
Proof.
  eexists. eexists. split; [vm_compute; reflexivity|]. split; reflexivity.
Qed.

(** ** The build *)

(** C9, as stated, fails: make succeeds, the log file cannot be written,
    and the exception of the write leaves [build_project]. *)
Lemma build_raises_when_log_unwritable :
  ~ (forall (self : X16DevTool) (w : BuildEnv) (game : string),
        exists ok, fst (build_project self w game) = Returns ok).
Proof.
  intros H.
  destruct (H demo_tool log_unwritable "pacman") as [ok Hok].
  vm_compute in Hok. discriminate Hok.
Qed.

(** C9, amended.  No failure of the build command leaves
    [build_project]: whether make returns, times out or fails to be
    invoked with any other Exception, and provided the write of the log
    succeeds, the method returns the success flag of the record it wrote,
    and that record was written, last, to [build_<session id>.json] in the
    log directory.  After a timeout the record has success false, the
    text "Build timeout after 30 seconds" as its errors and no return
    code; after any other Exception it has success false, the message of
    the exception as its errors and no return code; otherwise it carries
    the return code, stdout and stderr of make and succeeds exactly when
    the return code is 0. *)
Theorem build_failures_end_in_the_record (self : X16DevTool) (w : BuildEnv)
    (game : string) :
  be_write w = Returns tt ->
  (forall e, be_make w = Raises e -> is_Exception e = true) ->
  exists b,
    build_project self w game
      = (Returns (bl_success b),
         mkSt b [EvMake game; EvWrite (build_log_file self) (ABuild b)])
    /\ bl_command b = "make GAME=" ++ game
    /\ match be_make w with
       | Returns (rc, out, err) =>
           bl_success b = (rc =? 0) /\ bl_output b = out
           /\ bl_errors b = err /\ bl_return_code b = Some rc
       | Raises (TimeoutExpired _) =>
           bl_success b = false /\ bl_output b = ""
           /\ bl_errors b = "Build timeout after 30 seconds"
           /\ bl_return_code b = None
       | Raises e =>
           bl_success b = false /\ bl_output b = ""
           /\ bl_errors b = str_of_exn e /\ bl_return_code b = None
       end.
Proof.
  intros Hwrite Hmake.
  unfold build_project, build_project_body. run_monad. rewrite Hwrite.
  destruct (be_make w) as [[[rc out] err]|e];
    [|specialize (Hmake e eq_refl); destruct e; try discriminate Hmake];
    cbv beta iota delta [is_TimeoutExpired is_Exception];
    eexists; (split; [reflexivity|]); repeat split.
Qed.

Lemma build_failures_end_in_the_record_witness :
  exists b,
    build_project demo_tool make_times_out "pacman"
      = (Returns false,
         mkSt b [EvMake "pacman";
                 EvWrite "dev_logs/build_20240101_120000.json" (ABuild b)])
    /\ bl_success b = false
    /\ bl_errors b = "Build timeout after 30 seconds"
    /\ bl_return_code b = None.
Proof.
  destruct (build_failures_end_in_the_record demo_tool make_times_out
              "pacman") as (b & Hrun & _ & Hok & _ & Herr & Hrc).
  - reflexivity.
  - intros e He. inversion He. reflexivity.
  - exists b. rewrite Hrun, Hok. repeat split; assumption.
Defined.

(** The three outcomes of make in the sample worlds. *)
Example build_records :
  (exists b st, build_project demo_tool make_ok "pacman" = (Returns true, st)
                /\ persisted_builds (trace st)
                   = [("dev_logs/build_20240101_120000.json", b)]
                /\ bl_success b = true /\ bl_return_code b = Some 0)
  /\ (exists b st,
        build_project demo_tool make_missing "pacman" = (Returns false, st)
        /\ persisted_builds (trace st)
           = [("dev_logs/build_20240101_120000.json", b)]
        /\ bl_errors b = "No such file or directory: make"
        /\ bl_return_code b = None)
  /\ (exists e st,
        build_project demo_tool log_unwritable "pacman" = (Raises e, st)
        /\ persisted_builds (trace st) = []).
Proof.
  repeat split; eexists; eexists; (split; [vm_compute; reflexivity|]);
    repeat split.
Qed.

(** ** The clean-up of the development loop *)

Lemma try_finally_state {D A} (body : M D A) (final : M D unit) (s : St D) :
  snd (try_finally body final s) = snd (final (snd (body s))).
Proof.
  unfold try_finally. destruct (body s) as [r s']. cbn [snd].
  now destruct (final s') as [[u|e] s''].
Qed.

(** Whatever terminate, wait and killall answer, [stop_emulator] makes at
    least one of these calls and makes no other call after it. *)
Lemma stop_emulator_stops
    (answers : outcome unit * outcome unit * outcome unit)
    (s : St X16DevLoop.Loop) :
  exists pre ev,
    trace (snd (X16DevLoop.stop_emulator answers s)) = (pre ++ [ev])%list
    /\ X16DevLoop.stop_event ev.
Proof.
  destruct answers as [[terminate wait] killall]. destruct s as [self tr].
  unfold X16DevLoop.stop_emulator. run_monad.
  destruct (X16DevLoop.emulator_process self).
  - destruct terminate as [u|e]; [destruct wait as [u'|e]|];
      [destruct killall as [u''|e] | |];
      try destruct (is_Exception e);
      cbv beta iota delta [snd trace];
      eexists; eexists; (split; [reflexivity | exact I]).
  - destruct killall as [u|e]; try destruct (is_Exception e);
      cbv beta iota delta [snd trace];
      eexists; eexists; (split; [reflexivity | exact I]).
Qed.

(** [run_loop] ends in its clean-up on every path: after a failed build,
    after the last iteration, after Ctrl-C, and also when an exception it
    does not catch passes through.  The last external call of every run
    is one of the stop calls of [stop_emulator]. *)
Lemma cleanup_always_runs (w : X16DevLoop.LoopEnv) (max_iterations : nat) :
  exists pre ev,
    trace (snd (X16DevLoop.run_loop w max_iterations)) = (pre ++ [ev])%list
    /\ X16DevLoop.stop_event ev.
Proof.
  unfold X16DevLoop.run_loop, X16DevLoop.run_loop_body, exec.
  unfold bind at 1, get at 1. cbv beta iota.
  rewrite try_finally_state. unfold X16DevLoop.cleanup.
  apply stop_emulator_stops.
Qed.

(** Ctrl-C while the emulator runs: the loop stops it before it returns. *)
Example interrupted_loop_stops_the_emulator :
  X16DevLoop.run_loop X16DevLoop.interrupted_loop 3
  = (Returns tt,
     mkSt (X16DevLoop.mkLoop true 0)
          [EvMakeClean; EvMakeAll; EvKillall; EvSleep 1;
           EvPopen ["x16emu"; "-prg"; "pacman.prg"; "-run"];
           EvSleep 3; EvSleep 10; EvTerminate; EvWait 5; EvKillall]).
Proof. vm_compute. reflexivity. Qed.

(** A cycle that reports success has added one to [self.iteration]. *)
Lemma cycle_advances (w : X16DevLoop.LoopEnv) (s s' : St X16DevLoop.Loop) :
  X16DevLoop.run_development_cycle w s = (Returns true, s') ->
  X16DevLoop.iteration (data s') = S (X16DevLoop.iteration (data s)).
Proof.
  destruct s as [self tr].
  unfold X16DevLoop.run_development_cycle, X16DevLoop.build_project,
         X16DevLoop.start_emulator, X16DevLoop.take_screenshot,
         X16DevLoop.log_iteration, X16DevLoop.stop_emulator.
  run_monad.
  change (10 <? 0) with false; change (3 <? 0) with false;
    change (1 <? 0) with false; cbv beta iota.
  destruct (X16DevLoop.dl_stop w (X16DevLoop.iteration self))
    as [[terminate wait] killall].
  repeat (lazymatch goal with
          | |- ?l = _ -> _ =>
              let x := pending l in
              lazymatch x with
              | (_, _) => fail
              | match ?y with nil => _ | cons _ _ => _ end => destruct y
              | match ?y with nil => _ | cons _ _ => _ end _ => destruct y
              | _ => destruct x
              end
          end;
          cbv beta iota delta [fst snd data trace negb
                               X16DevLoop.set_emulator_process
                               X16DevLoop.emulator_process];
          try discriminate).
  all: intros H; inversion H; subst; clear H; cbn;
    apply Nat.add_1_r.
Qed.

(** One round of the [while] loop. *)
Lemma while_loop_round (w : X16DevLoop.LoopEnv) (max_iterations fuel : nat)
    (s : St X16DevLoop.Loop) :
  X16DevLoop.while_loop w max_iterations (S fuel) s =
  if (X16DevLoop.iteration (data s) <? max_iterations)%nat then
    match X16DevLoop.run_development_cycle w s with
    | (Returns true, s1) =>
        match (if (X16DevLoop.iteration (data s1) <? max_iterations)%nat
               then py_sleep 5 (X16DevLoop.dl_sleep_5 w
                                  (X16DevLoop.iteration (data s1)))
               else ret tt) s1 with
        | (Returns _, s2) => X16DevLoop.while_loop w max_iterations fuel s2
        | (Raises e, s2) => (Raises e, s2)
        end
    | (Returns false, s1) => (Returns tt, s1)
    | (Raises e, s1) => (Raises e, s1)
    end
  else (Returns tt, s).
Proof.
  cbn [X16DevLoop.while_loop]. unfold bind, get. cbv beta iota.
  destruct (X16DevLoop.iteration (data s) <? max_iterations)%nat;
    [|reflexivity].
  destruct (X16DevLoop.run_development_cycle w s) as [[[|]|e] s1];
    reflexivity.
Qed.

(** The fuel of [while_loop] is only a device: any amount above
    [max_iterations - self.iteration] gives the same run. *)
Lemma while_loop_fuel (w : X16DevLoop.LoopEnv) (max_iterations : nat) :
  forall (fuel1 fuel2 : nat) (s : St X16DevLoop.Loop),
    (max_iterations - X16DevLoop.iteration (data s) < fuel1)%nat ->
    (max_iterations - X16DevLoop.iteration (data s) < fuel2)%nat ->
    X16DevLoop.while_loop w max_iterations fuel1 s
    = X16DevLoop.while_loop w max_iterations fuel2 s.
Proof.
  induction fuel1 as [|fuel1 IH]; intros fuel2 s H1 H2; [lia|].
  destruct fuel2 as [|fuel2]; [lia|].
  rewrite !while_loop_round.
  destruct (Nat.ltb_spec (X16DevLoop.iteration (data s)) max_iterations)
    as [Hlt|Hge]; [|reflexivity].
  destruct (X16DevLoop.run_development_cycle w s) as [[[|]|e] s1] eqn:Hcycle;
    try reflexivity.
  pose proof (cycle_advances w s s1 Hcycle) as Hadv.
  destruct ((if (X16DevLoop.iteration (data s1) <? max_iterations)%nat
             then py_sleep 5
                    (X16DevLoop.dl_sleep_5 w (X16DevLoop.iteration (data s1)))
             else ret tt) s1) as [[u|e] s2] eqn:Hsleep; [|reflexivity].
  assert (Hdata : data s2 = data s1).
  { destruct (X16DevLoop.iteration (data s1) <? max_iterations)%nat.
    - unfold py_sleep in Hsleep. change (5 <? 0) with false in Hsleep.
      run_monad. now inversion Hsleep.
    - unfold ret in Hsleep. now inversion Hsleep. }
  apply IH; rewrite Hdata, Hadv; lia.
Qed.

(** * Further properties of [run_emulator_with_capture] *)

(** X1.  When the program file does not exist the method returns at once:
    the only external call is the existence test, the emulator is not
    spawned, and the Session has status program_not_found, no capture, no
    process id and no recording reference. *)
Theorem missing_program_is_not_spawned (times : list Z) (self : X16DevTool)
    (w : RunEnv) (program : string) (duration : Z) :
  re_program_exists w = false ->
  exists s,
    run_with_schedule times self w program duration
      = (Returns s, mkSt s [EvExists (program_path self program)])
    /\ status s = program_not_found
    /\ program_exists s = false
    /\ screenshots s = []
    /\ emulator_pid s = None
    /\ gif_recording s = None.
Proof.
  intros Hprog. run_open. rewrite Hprog. cbv beta iota delta [negb].
  eexists. split; [reflexivity|]. repeat split.
Qed.

Lemma missing_program_is_not_spawned_witness :
  exists s,
    run_with_schedule screenshot_times demo_tool not_found_world
      "pacman.prg" 10
      = (Returns s, mkSt s [EvExists (program_path demo_tool "pacman.prg")])
    /\ status s = program_not_found
    /\ program_exists s = false
    /\ screenshots s = []
    /\ emulator_pid s = None
    /\ gif_recording s = None.
Proof.
  apply (missing_program_is_not_spawned screenshot_times demo_tool
           not_found_world "pacman.prg" 10).
  reflexivity.
Defined.

(** X2.  When the spawn itself raises an Exception the method does not
    raise: it records status error and the message of the exception,
    still issues [pkill x16emu] (whatever that answers), writes the
    Session and returns it, with no process id and no capture. *)
Theorem spawn_failure_is_recorded (times : list Z) (self : X16DevTool)
    (w : RunEnv) (program : string) (duration : Z) (e : exn) :
  re_program_exists w = true ->
  re_popen w = Raises e ->
  is_Exception e = true ->
  re_write w = Returns tt ->
  exists s,
    run_with_schedule times self w program duration
      = (Returns s,
         mkSt s [EvExists (program_path self program);
                 EvPopen (emulator_cmd self program);
                 EvPkill;
                 EvWrite (session_file self) (ASession s)])
    /\ status s = error
    /\ error_msg s = Some (str_of_exn e)
    /\ emulator_pid s = None
    /\ screenshots s = [].
Proof.
  intros Hprog Hpopen He Hwrite. run_open.
  rewrite Hprog. cbv beta iota delta [negb].
  rewrite Hpopen. cbv beta iota. rewrite He. cbv beta iota.
  destruct (re_pkill w); cbv beta iota; rewrite Hwrite; cbv beta iota;
    (eexists; split; [reflexivity|]; repeat split).
Qed.

Lemma spawn_failure_is_recorded_witness :
  exists s,
    run_with_schedule screenshot_times demo_tool no_emulator_world
      "pacman.prg" 10
      = (Returns s,
         mkSt s [EvExists (program_path demo_tool "pacman.prg");
                 EvPopen (emulator_cmd demo_tool "pacman.prg");
                 EvPkill;
                 EvWrite (session_file demo_tool) (ASession s)])
    /\ status s = error
    /\ error_msg s = Some "No such file or directory: x16emu"
    /\ emulator_pid s = None
    /\ screenshots s = [].
Proof.
  apply (spawn_failure_is_recorded screenshot_times demo_tool
           no_emulator_world "pacman.prg" 10
           (OtherException "No such file or directory: x16emu"));
    reflexivity.
Defined.

(** Read the outcome and the final state off a finished run without
    touching the shape of its trace. *)
Ltac run_result H :=
  apply pair_equal_spec in H;
  let Ho := fresh "Ho" in
  let Hs := fresh "Hs" in
  destruct H as [Ho Hs];
  first [ discriminate Ho | injection Ho as Ho; subst ].

Ltac fields_norm :=
  cbn [status error_msg program_exists session_id program duration
       screenshots emulator_pid emulator_output emulator_stderr
       gif_recording set_status set_emulator_output set_emulator_stderr
       set_emulator_pid set_gif_recording set_program_exists set_error
       with_captures init_session] in *.

(** X3.  The Session a run returns is consistent: the key "error" is
    present exactly when the status is error; [program_exists] is false
    exactly when the status is program_not_found; a Session with captures
    has a process id; and the Session echoes the session id of the tool
    and the program and duration it was called with. *)
Theorem returned_session_is_consistent (times : list Z) (self : X16DevTool)
    (w : RunEnv) (prog : string) (dur : Z) (s : Session)
    (st : St Session) :
  run_with_schedule times self w prog dur = (Returns s, st) ->
  (error_msg s <> None <-> status s = error)
  /\ (program_exists s = false <-> status s = program_not_found)
  /\ (screenshots s <> [] -> emulator_pid s <> None)
  /\ session_id s = tool_session_id self
  /\ program s = prog
  /\ duration s = dur
  /\ data st = s.
Proof.
  run_cases; intros H; inversion H; subst; clear H;
    cbv beta iota delta [negb] in *; fields_norm;
    destruct (re_program_exists w); try discriminate;
    repeat split; intros; try discriminate; try reflexivity;
    try congruence.
Qed.

Lemma returned_session_is_consistent_witness :
  exists s st,
    run_with_schedule screenshot_times demo_tool no_emulator_world
      "pacman.prg" 10 = (Returns s, st)
    /\ (error_msg s <> None <-> status s = error)
    /\ (program_exists s = false <-> status s = program_not_found)
    /\ (screenshots s <> [] -> emulator_pid s <> None)
    /\ session_id s = tool_session_id demo_tool
    /\ program s = "pacman.prg"
    /\ duration s = 10
    /\ data st = s.
Proof.
  eexists. eexists. split; [vm_compute; reflexivity|].
  apply (returned_session_is_consistent screenshot_times demo_tool
           no_emulator_world "pacman.prg" 10).
  vm_compute; reflexivity.
Defined.

(** X4.  Text captured from stderr appears only in Sessions of the
    early-exit branch: on every other path the final drain discards
    stderr and [emulator_stderr] stays empty. *)
Theorem stderr_only_after_early_exit (times : list Z) (self : X16DevTool)
    (w : RunEnv) (prog : string) (dur : Z) (s : Session)
    (st : St Session) :
  run_with_schedule times self w prog dur = (Returns s, st) ->
  status s <> emulator_exited_early ->
  emulator_stderr s = "".
Proof.
  run_cases; intros H; inversion H; subst; clear H; fields_norm;
    intros Hst; try reflexivity; exfalso; apply Hst; reflexivity.
Qed.

Lemma stderr_only_after_early_exit_witness :
  exists s st,
    run_with_schedule screenshot_times demo_tool calm_world "pacman.prg" 10
      = (Returns s, st)
    /\ status s <> emulator_exited_early
    /\ emulator_stderr s = "".
Proof.
  eexists. eexists. split; [vm_compute; reflexivity|].
  split; [discriminate|].
  eapply (stderr_only_after_early_exit screenshot_times demo_tool calm_world
            "pacman.prg" 10).
  - vm_compute; reflexivity.
  - discriminate.
Defined.

(** X5.  In a Session that reached the stop step, [emulator_output] is
    the stdout of the final drain, or the sentinel text "Emulator still
    running (timeout)" when that drain timed out: the timeout is not an
    error. *)
Theorem drained_output_or_sentinel (times : list Z) (self : X16DevTool)
    (w : RunEnv) (prog : string) (dur : Z) (s : Session)
    (st : St Session) :
  run_with_schedule times self w prog dur = (Returns s, st) ->
  status s = completed \/ status s = force_killed ->
  emulator_output s
  = match re_communicate_final w with
    | Returns (out, _) => out
    | Raises _ => "Emulator still running (timeout)"
    end.
Proof.
  run_cases; intros H; inversion H; subst; clear H; fields_norm;
    (intros [Hst|Hst]; try discriminate Hst); reflexivity.
Qed.

Lemma drained_output_or_sentinel_witness :
  exists s st,
    run_with_schedule screenshot_times demo_tool stubborn_world
      "pacman.prg" 10 = (Returns s, st)
    /\ (status s = completed \/ status s = force_killed)
    /\ emulator_output s = "Emulator still running (timeout)".
Proof.
  eexists. eexists. split; [vm_compute; reflexivity|].
  split; [right; reflexivity|].
  eapply (drained_output_or_sentinel screenshot_times demo_tool
            stubborn_world "pacman.prg" 10).
  - vm_compute; reflexivity.
  - right; reflexivity.
Defined.





(** X8.  On every path that does not return early, the write of the
    Session is the last external call of the method: it stores the very
    value that is returned, under session_<session id>.json in the log
    directory, and no other session artifact is written before it. *)
Theorem session_write_is_last (times : list Z) (self : X16DevTool)
    (w : RunEnv) (prog : string) (dur : Z) (s : Session)
    (st : St Session) :
  run_with_schedule times self w prog dur = (Returns s, st) ->
  status s = completed \/ status s = force_killed \/ status s = error ->
  exists pre,
    trace st = (pre ++ [EvWrite (session_file self) (ASession s)])%list
    /\ persisted_sessions pre = [].
Proof.
  run_cases; intros H; run_result H; loop_facts;
    cbn [trace]; fields_norm;
    (intros [Hst|[Hst|Hst]]; try discriminate Hst);
    eexists; (split; [reflexivity|]); persisted_norm; reflexivity.
Qed.

Lemma session_write_is_last_witness :
  exists s st pre,
    run_with_schedule screenshot_times demo_tool stubborn_world
      "pacman.prg" 10 = (Returns s, st)
    /\ status s = force_killed
    /\ trace st
       = (pre ++ [EvWrite (session_file demo_tool) (ASession s)])%list
    /\ persisted_sessions pre = [].
Proof.
  destruct (run_with_schedule screenshot_times demo_tool stubborn_world
              "pacman.prg" 10) as [[s|e] st] eqn:Hrun;
    [|vm_compute in Hrun; discriminate Hrun].
  assert (Hst : status s = force_killed).
  { vm_compute in Hrun. inversion Hrun. reflexivity. }
  destruct (session_write_is_last screenshot_times demo_tool stubborn_world
              "pacman.prg" 10 s st Hrun (or_intror (or_introl Hst)))
    as (pre & Htrace & Hpre).
  exists s, st, pre. repeat split; assumption.
Defined.

(** ** The schedule, call by call *)

Lemma capture_calls_app (a b : list event) :
  capture_calls (a ++ b) = (capture_calls a + capture_calls b)%nat.
Proof.
  induction a as [|ev a IH]; [reflexivity|].
  destruct ev; cbn; try exact IH. now rewrite IH.
Qed.

Lemma after_stop_app (a b : list event) :
  stop_calls a = 0%nat -> after_stop (a ++ b) = after_stop b.
Proof.
  induction a as [|ev a IH]; [reflexivity|].
  destruct ev; cbn; intros H; try (apply IH; exact H). discriminate H.
Qed.

Section Schedule.
Variables (self : X16DevTool) (w : RunEnv) (duration : Z).

(** Each capture the loop appends carries the offset found at its
    position of the schedule, and that offset is within the duration. *)
Lemma loop_summary_offsets (times : list Z) :
  forall i prev,
    Forall (fun c => exists j, step c = (i + 1 + j)%nat
                               /\ nth_error times j = Some (time c)
                               /\ time c <= duration)
           (snd (fst (loop_summary self w duration i prev times))).
Proof.
  induction times as [|t rest IH]; intros i prev; cbn [loop_summary].
  - constructor.
  - specialize (IH (S i) t).
    destruct (loop_summary self w duration (S i) t rest)
      as [[o caps] evs].
    cbn [fst snd] in IH.
    assert (Hrest : Forall (fun c => exists j, step c = (i + 1 + j)%nat
                                    /\ nth_error (t :: rest) j = Some (time c)
                                    /\ time c <= duration) caps).
    { eapply Forall_impl; [|exact IH]. cbn beta.
      intros c (j & Hstep & Hnth & Hle). exists (S j).
      split; [lia|]. split; assumption. }
    unfold round_of.
    destruct (Z.leb_spec t duration) as [Hle|Hgt]; [|exact Hrest].
    destruct (t - prev <? 0); [constructor|].
    destruct (re_sleep_step w i); [|constructor].
    destruct (re_screencapture w i) as [u|e].
    + cbn [fst snd]. constructor; [|exact Hrest].
      exists 0%nat. cbn. repeat split; [lia|exact Hle].
    + destruct (is_Exception e); [exact Hrest|constructor].
Qed.

(** The loop makes at most one screencapture call per offset within the
    duration, appends at most one capture per call, and makes all of
    these calls when it runs to its end. *)
Lemma loop_summary_counts (times : list Z) :
  forall i prev,
    let '(o, caps, evs) := loop_summary self w duration i prev times in
    (List.length caps <= capture_calls evs)%nat
    /\ (capture_calls evs <= List.length (due_offsets duration times))%nat
    /\ ((exists u, o = Returns u) ->
        capture_calls evs = List.length (due_offsets duration times)).
Proof.
  induction times as [|t rest IH]; intros i prev; cbn [loop_summary].
  - cbn. repeat split; intros; lia.
  - specialize (IH (S i) t).
    destruct (loop_summary self w duration (S i) t rest)
      as [[o caps] evs].
    destruct IH as (H1 & H2 & H3).
    unfold round_of, due_offsets in *. cbn [filter].
    destruct (t <=? duration); [|repeat split; assumption].
    cbn [List.length].
    destruct (t - prev <? 0).
    { cbn. repeat split; try lia. intros [u Hu]. discriminate Hu. }
    destruct (re_sleep_step w i).
    2:{ cbn. repeat split; try lia. intros [u Hu]. discriminate Hu. }
    destruct (re_screencapture w i) as [u|e].
    + cbn. repeat split; try lia. intros Hu. rewrite (H3 Hu). reflexivity.
    + destruct (is_Exception e).
      * cbn. repeat split; try lia. intros Hu. rewrite (H3 Hu). reflexivity.
      * cbn. repeat split; try lia. intros [u Hu]. discriminate Hu.
Qed.
End Schedule.

Lemma loop_summary_offsets_of self w duration times o caps evs :
  loop_summary self w duration 0 0 times = (o, caps, evs) ->
  Forall (fun c => nth_error times (step c - 1) = Some (time c)
                   /\ time c <= duration) caps.
Proof.
  intros E.
  pose proof (loop_summary_offsets self w duration times 0%nat 0) as H.
  rewrite E in H. cbn [fst snd] in H.
  eapply Forall_impl; [|exact H]. cbn beta.
  intros c (j & Hstep & Hnth & Hle). rewrite Hstep.
  replace (0 + 1 + j - 1)%nat with j by lia. split; assumption.
Qed.

Lemma loop_summary_counts_of self w duration times o caps evs :
  loop_summary self w duration 0 0 times = (o, caps, evs) ->
  (List.length caps <= capture_calls evs)%nat
  /\ (capture_calls evs <= List.length (due_offsets duration times))%nat
  /\ ((exists u, o = Returns u) ->
      capture_calls evs = List.length (due_offsets duration times)).
Proof.
  intros E.
  pose proof (loop_summary_counts self w duration times 0%nat 0) as H.
  now rewrite E in H.
Qed.

Ltac calls_norm :=
  repeat first
    [ progress cbn [capture_calls app Nat.add]
    | rewrite capture_calls_app ].

Ltac loop_counts :=
  repeat match goal with
  | E : loop_summary _ _ _ _ _ _ = (_, ?caps, ?evs) |- _ =>
      lazymatch goal with
      | _ : (List.length caps <= capture_calls evs)%nat |- _ => fail
      | _ => destruct (loop_summary_counts_of _ _ _ _ _ _ _ E)
               as (? & ? & ?)
      end
  end.

(** X9.  Every capture of a returned Session records the offset that
    stands at its position of the schedule (step k carries the k-th
    offset), and that offset is within the duration. *)
Theorem capture_records_its_scheduled_offset (times : list Z)
    (self : X16DevTool) (w : RunEnv) (prog : string) (dur : Z)
    (s : Session) (st : St Session) :
  run_with_schedule times self w prog dur = (Returns s, st) ->
  Forall (fun c => nth_error times (step c - 1) = Some (time c)
                   /\ time c <= dur)
         (screenshots s).
Proof.
  run_cases; intros H; run_result H; fields_norm; cbn [app];
    try constructor;
    eapply loop_summary_offsets_of; eassumption.
Qed.

Lemma capture_records_its_scheduled_offset_witness :
  exists s st,
    run_with_schedule screenshot_times demo_tool first_capture_fails_world
      "pacman.prg" 8 = (Returns s, st)
    /\ map (fun c => (step c, time c)) (screenshots s)
       = [(2%nat, 3); (3%nat, 5); (4%nat, 8)]
    /\ Forall (fun c => nth_error screenshot_times (step c - 1)
                        = Some (time c) /\ time c <= 8)
              (screenshots s).
Proof.
  eexists. eexists. split; [vm_compute; reflexivity|].
  split; [reflexivity|].
  eapply (capture_records_its_scheduled_offset screenshot_times demo_tool
            first_capture_fails_world "pacman.prg" 8).
  vm_compute; reflexivity.
Defined.

(** X10.  A run makes at most one screencapture call per offset within
    the duration and records at most one capture per call; in
    particular, with a duration below the first offset nothing is
    captured. *)
Theorem captures_bounded_by_due_offsets (times : list Z)
    (self : X16DevTool) (w : RunEnv) (prog : string) (dur : Z)
    (s : Session) (st : St Session) :
  run_with_schedule times self w prog dur = (Returns s, st) ->
  (List.length (screenshots s) <= capture_calls (trace st))%nat
  /\ (capture_calls (trace st) <= List.length (due_offsets dur times))%nat.
Proof.
  run_cases; intros H; run_result H; loop_counts; fields_norm;
    cbn [trace app List.length]; calls_norm; split; lia.
Qed.

Lemma captures_bounded_by_due_offsets_witness :
  exists s st,
    run_with_schedule screenshot_times demo_tool calm_world "pacman.prg" 0
      = (Returns s, st)
    /\ status s = completed
    /\ due_offsets 0 screenshot_times = []
    /\ (List.length (screenshots s) <= capture_calls (trace st))%nat
    /\ (capture_calls (trace st)
        <= List.length (due_offsets 0 screenshot_times))%nat.
Proof.
  eexists. eexists. split; [vm_compute; reflexivity|].
  split; [reflexivity|]. split; [reflexivity|].
  eapply (captures_bounded_by_due_offsets screenshot_times demo_tool
            calm_world "pacman.prg" 0).
  vm_compute; reflexivity.
Defined.

(** X11.  A failed capture does not abort the schedule: a run that
    reaches the stop step has made exactly one screencapture call for
    every offset within the duration, however many of them failed. *)
Theorem every_due_capture_is_attempted (times : list Z)
    (self : X16DevTool) (w : RunEnv) (prog : string) (dur : Z)
    (s : Session) (st : St Session) :
  run_with_schedule times self w prog dur = (Returns s, st) ->
  status s = completed \/ status s = force_killed ->
  capture_calls (trace st) = List.length (due_offsets dur times).
Proof.
  run_cases; intros H; run_result H; loop_counts; fields_norm;
    (intros [Hst|Hst]; try discriminate Hst);
    cbn [trace]; calls_norm;
    match goal with
    | Hall : (exists u, Returns ?a = Returns u) -> _ |- _ =>
        rewrite (Hall (ex_intro _ a eq_refl))
    end; lia.
Qed.

Lemma every_due_capture_is_attempted_witness :
  exists s st,
    run_with_schedule screenshot_times demo_tool first_capture_fails_world
      "pacman.prg" 8 = (Returns s, st)
    /\ (status s = completed \/ status s = force_killed)
    /\ List.length (screenshots s) = 3%nat
    /\ capture_calls (trace st) = 4%nat.
Proof.
  eexists. eexists. split; [vm_compute; reflexivity|].
  split; [left; reflexivity|]. split; [reflexivity|].
  eapply (every_due_capture_is_attempted screenshot_times demo_tool
            first_capture_fails_world "pacman.prg" 8).
  - vm_compute; reflexivity.
  - left; reflexivity.
Defined.

Lemma after_stop_quiet (a : list event) :
  stop_calls a = 0%nat -> after_stop a = [].
Proof.
  intros H. rewrite <- (app_nil_r a). now rewrite after_stop_app.
Qed.

Ltac after_stop_norm :=
  cbn [trace]; rewrite <- ?app_assoc;
  repeat first
    [ progress cbn [after_stop app]
    | rewrite after_stop_app by (apply loop_never_stops; assumption)
    | rewrite after_stop_quiet by (apply loop_never_stops; assumption) ].

(** X12.  Once [pkill x16emu] has been issued the emulator is not touched
    again: whatever the outcome of the run, the calls after the stop
    command are only the look for the recording file, its announcement
    and the write of the Session; no capture, sleep, drain or second stop
    follows. *)
Theorem nothing_but_bookkeeping_after_stop (times : list Z)
    (self : X16DevTool) (w : RunEnv) (prog : string) (dur : Z)
    (o : outcome Session) (st : St Session) :
  run_with_schedule times self w prog dur = (o, st) ->
  Forall closing_event (after_stop (trace st)).
Proof.
  run_cases; intros H; apply pair_equal_spec in H; destruct H as [_ <-];
    loop_facts; after_stop_norm; repeat constructor.
Qed.

Lemma nothing_but_bookkeeping_after_stop_witness :
  exists o st,
    run_with_schedule screenshot_times demo_tool calm_world "pacman.prg" 10
      = (o, st)
    /\ List.length (after_stop (trace st)) = 3%nat
    /\ Forall closing_event (after_stop (trace st)).
Proof.
  eexists. eexists. split; [vm_compute; reflexivity|].
  split; [reflexivity|].
  eapply (nothing_but_bookkeeping_after_stop screenshot_times demo_tool
            calm_world "pacman.prg" 10).
  vm_compute; reflexivity.
Defined.

(** * Further properties of [analyze_session] *)

Lemma with_issues_recommendations (msgs : list string) (a : Analysis) :
  an_recommendations (with_issues msgs a) = an_recommendations a.
Proof. reflexivity. Qed.

(** The whole method in one equation: the analysis it computes, and the
    one write it makes. *)
Lemma analyze_session_eq (self : X16DevTool) (w : AnalysisEnv)
    (session_data : Session) :
  analyze_session self w session_data =
  match ae_write w with
  | Returns _ =>
      (Returns (analysis_summary w session_data),
       mkSt (analysis_summary w session_data)
            [EvWrite (analysis_file self)
                     (AAnalysis (analysis_summary w session_data))])
  | Raises e =>
      (Raises e,
       mkSt (analysis_summary w session_data)
            [EvWriteFailed (analysis_file self)])
  end.
Proof.
  unfold analyze_session, analyze_body, analysis_summary. run_monad.
  destruct (List.length (screenshots session_data) =? 0)%nat;
    destruct (Status_eqb (status session_data) error);
    destruct (contains "error" (lower (emulator_output session_data)));
    rewrite check_screenshots_eq; cbn [data trace];
    destruct (ae_write w); reflexivity.
Qed.

Lemma analyze_session_returns (self : X16DevTool) (w : AnalysisEnv)
    (session_data : Session) (a : Analysis) (st : St Analysis) :
  analyze_session self w session_data = (Returns a, st) ->
  a = analysis_summary w session_data.
Proof.
  rewrite analyze_session_eq. destruct (ae_write w); intros H;
    now inversion H.
Qed.

(** ** Strings *)

Lemma startswith_spec (p s : string) :
  startswith p s = true <-> exists r, s = p ++ r.
Proof.
  revert s. induction p as [|a p IH]; intros s; cbn.
  - split; [intros _; now exists s | reflexivity].
  - destruct s as [|b s].
    + split; [discriminate | intros [r Hr]; discriminate Hr].
    + rewrite andb_true_iff, Ascii.eqb_eq, IH. split.
      * intros [-> [r ->]]. now exists r.
      * intros [r Hr]. inversion Hr. split; [reflexivity | now exists r].
Qed.

Lemma contains_spec (needle hay : string) :
  contains needle hay = true <-> exists a b, hay = a ++ needle ++ b.
Proof.
  induction hay as [|c hay IH]; cbn [contains];
    rewrite orb_true_iff, startswith_spec.
  - split.
    + intros [[r Hr] | H]; [|discriminate H]. now exists "", r.
    + intros (a & b & H). left. destruct a as [|c a]; [|discriminate H].
      now exists b.
  - rewrite IH. split.
    + intros [[r Hr] | (a & b & H)].
      * now exists "", r.
      * exists (String c a), b. cbn. now rewrite H.
    + intros (a & b & H). destruct a as [|c' a].
      * left. now exists b.
      * right. cbn in H. inversion H. now exists a, b.
Qed.

Lemma lower_app (a b : string) : lower (a ++ b) = lower a ++ lower b.
Proof.
  induction a as [|c a IH]; [reflexivity|]. cbn. now rewrite IH.
Qed.

Lemma lower_split (s p q : string) :
  lower s = p ++ q ->
  exists s1 s2, s = s1 ++ s2 /\ lower s1 = p /\ lower s2 = q.
Proof.
  revert s. induction p as [|c p IH]; intros s H.
  - now exists "", s.
  - destruct s as [|d s]; [discriminate H|].
    cbn in H. inversion H as [[Hc Hrest]].
    destruct (IH s Hrest) as (s1 & s2 & -> & H1 & H2).
    exists (String d s1), s2. cbn. rewrite H1. repeat split; assumption.
Qed.

(** [needle in hay.lower()]: some stretch of [hay] reads [needle] once
    lowered. *)
Lemma contains_lower_spec (needle hay : string) :
  contains needle (lower hay) = true
  <-> exists a x b, hay = a ++ x ++ b /\ lower x = needle.
Proof.
  rewrite contains_spec. split.
  - intros (a' & b' & H).
    destruct (lower_split _ _ _ H) as (a & rest & -> & _ & Hrest).
    destruct (lower_split _ _ _ Hrest) as (x & b & -> & Hx & _).
    now exists a, x, b.
  - intros (a & x & b & -> & Hx).
    exists (lower a), (lower b). now rewrite !lower_app, Hx.
Qed.

(** ** The rules of the analysis *)

Lemma screenshot_issues_in (w : AnalysisEnv) (shots : list Capture)
    (msg : string) :
  In msg (screenshot_issues w shots) <->
  exists c, In c shots /\ ae_exists w (file c) = true
            /\ ((ae_size w (file c) < 1000 /\ msg = small_issue c)
                \/ (20000000 < ae_size w (file c) /\ msg = large_issue c)).
Proof.
  induction shots as [|c rest IH]; cbn [screenshot_issues].
  - split; [intros [] | intros (c & [] & _)].
  - rewrite in_app_iff, IH. split.
    + intros [Hin | (c' & Hc' & H)].
      * exists c. split; [now left|].
        destruct (ae_exists w (file c)); [|destruct Hin].
        split; [reflexivity|].
        destruct (Z.ltb_spec (ae_size w (file c)) 1000).
        -- destruct Hin as [<-|[]]. left. split; [assumption|reflexivity].
        -- destruct (Z.ltb_spec 20000000 (ae_size w (file c)));
             [|destruct Hin].
           destruct Hin as [<-|[]]. right. split; [assumption|reflexivity].
      * exists c'. split; [now right | exact H].
    + intros (c' & [<- | Hin] & Hex & H).
      * left. rewrite Hex.
        destruct H as [[Hlt ->] | [Hgt ->]].
        -- destruct (Z.ltb_spec (ae_size w (file c)) 1000); [now left|lia].
        -- destruct (Z.ltb_spec (ae_size w (file c)) 1000); [lia|].
           destruct (Z.ltb_spec 20000000 (ae_size w (file c)));
             [now left|lia].
      * right. exists c'. repeat split; assumption.
Qed.

(** X13.  The "No screenshots captured" issue and the recommendation to
    check the screencapture permissions are given exactly for a Session
    without captures, and the analysis counts the captures of the
    Session. *)
Theorem empty_capture_list_is_reported (self : X16DevTool)
    (w : AnalysisEnv) (session_data : Session) (a : Analysis)
    (st : St Analysis) :
  analyze_session self w session_data = (Returns a, st) ->
  (In "No screenshots captured" (an_issues_detected a)
   <-> screenshots session_data = [])
  /\ (In "Check screencapture permissions" (an_recommendations a)
      <-> screenshots session_data = [])
  /\ an_screenshots_captured a = List.length (screenshots session_data).
Proof.
  intros Hrun. rewrite (analyze_session_returns _ _ _ _ _ Hrun).
  unfold analysis_summary.
  cbn [an_issues_detected an_recommendations an_screenshots_captured].
  rewrite !in_app_iff. repeat split.
  - intros [Hin | [Hin | [Hin | Hin]]].
    + destruct (screenshots session_data); [reflexivity | destruct Hin].
    + destruct (Status_eqb (status session_data) error);
        [destruct Hin as [Hin|[]]; discriminate Hin | destruct Hin].
    + destruct (contains "error" (lower (emulator_output session_data)));
        [destruct Hin as [Hin|[]]; discriminate Hin | destruct Hin].
    + pose proof (screenshot_issues_prefix w (screenshots session_data))
        as Hpre.
      rewrite Forall_forall in Hpre. specialize (Hpre _ Hin).
      discriminate Hpre.
  - intros ->. left. left. reflexivity.
  - intros [Hin | Hin].
    + destruct (screenshots session_data); [reflexivity | destruct Hin].
    + destruct (Status_eqb (status session_data) error);
        [destruct Hin as [Hin|[]]; discriminate Hin | destruct Hin].
  - intros ->. left. left. reflexivity.
Qed.

Lemma empty_capture_list_is_reported_witness :
  exists a st,
    analyze_session demo_tool quiet_files stderr_only_session
      = (Returns a, st)
    /\ In "No screenshots captured" (an_issues_detected a)
    /\ In "Check screencapture permissions" (an_recommendations a)
    /\ an_screenshots_captured a = 0%nat.
Proof.
  eexists. eexists. split; [vm_compute; reflexivity|].
  destruct (empty_capture_list_is_reported demo_tool quiet_files
              stderr_only_session _ _ eq_refl) as (Hi & Hr & Hn).
  split; [apply Hi; reflexivity|].
  split; [apply Hr; reflexivity | exact Hn].
Defined.

(** X14.  An issue of the form "Emulator error: ..." is raised exactly
    for a Session of status error, with the recorded message (or
    "Unknown" when none was recorded), together with the recommendation
    to check the installation; no other status, force_killed included,
    raises an issue. *)
Theorem error_status_is_reported (self : X16DevTool) (w : AnalysisEnv)
    (session_data : Session) (a : Analysis) (st : St Analysis) :
  analyze_session self w session_data = (Returns a, st) ->
  ((exists msg, In msg (an_issues_detected a)
                /\ startswith "Emulator error: " msg = true)
   <-> status session_data = error)
  /\ (status session_data = error ->
      In ("Emulator error: " ++ error_or_unknown session_data)
         (an_issues_detected a))
  /\ (In "Check emulator installation and program file"
         (an_recommendations a)
      <-> status session_data = error).
Proof.
  intros Hrun. rewrite (analyze_session_returns _ _ _ _ _ Hrun).
  unfold analysis_summary. cbn [an_issues_detected an_recommendations].
  assert (Heqb : Status_eqb (status session_data) error = true
                 <-> status session_data = error).
  { destruct (status session_data); cbn; split; intros H;
      try reflexivity; discriminate H. }
  repeat split.
  - intros (msg & Hin & Hpre). rewrite !in_app_iff in Hin.
    destruct Hin as [Hin | [Hin | [Hin | Hin]]].
    + destruct (List.length (screenshots session_data) =? 0)%nat;
        [destruct Hin as [<-|[]]; discriminate Hpre | destruct Hin].
    + destruct (Status_eqb (status session_data) error);
        [now apply Heqb | destruct Hin].
    + destruct (contains "error" (lower (emulator_output session_data)));
        [destruct Hin as [<-|[]]; discriminate Hpre | destruct Hin].
    + pose proof (screenshot_issues_prefix w (screenshots session_data))
        as Hshot.
      rewrite Forall_forall in Hshot. specialize (Hshot _ Hin).
      apply startswith_spec in Hpre, Hshot.
      destruct Hpre as [r ->]. destruct Hshot as [r' Hr'].
      discriminate Hr'.
  - intros Herr. apply Heqb in Herr.
    exists ("Emulator error: " ++ error_or_unknown session_data).
    rewrite !in_app_iff, Herr. split.
    + right. left. left. reflexivity.
    + apply startswith_spec. now eexists.
  - intros Herr. apply Heqb in Herr. rewrite !in_app_iff, Herr.
    right. left. left. reflexivity.
  - rewrite in_app_iff. intros [Hin | Hin].
    + destruct (List.length (screenshots session_data) =? 0)%nat;
        [destruct Hin as [Hin|[]]; discriminate Hin | destruct Hin].
    + destruct (Status_eqb (status session_data) error);
        [now apply Heqb | destruct Hin].
  - intros Herr. apply Heqb in Herr. rewrite in_app_iff, Herr.
    right. left. reflexivity.
Qed.

Lemma error_status_is_reported_witness :
  exists a st,
    analyze_session demo_tool quiet_files failed_session = (Returns a, st)
    /\ status failed_session = error
    /\ In "Emulator error: No such file or directory: x16emu"
          (an_issues_detected a)
    /\ In "Check emulator installation and program file"
          (an_recommendations a).
Proof.
  eexists. eexists. split; [vm_compute; reflexivity|].
  split; [reflexivity|].
  destruct (error_status_is_reported demo_tool quiet_files failed_session
              _ _ eq_refl) as (_ & Hi & Hr).
  split; [apply Hi; reflexivity | apply Hr; reflexivity].
Defined.

(** X15.  A capture whose file exists is reported as unusually small
    below 1000 bytes and as unusually large above 20,000,000 bytes, under
    its step index; and every "Screenshot ..." issue of the analysis
    stems from such a capture.  Sizes from 1000 to 20,000,000 and capture
    files that do not exist are passed over in silence. *)
Theorem capture_sizes_are_checked (self : X16DevTool) (w : AnalysisEnv)
    (session_data : Session) (a : Analysis) (st : St Analysis) :
  analyze_session self w session_data = (Returns a, st) ->
  forall msg,
    (In msg (an_issues_detected a) /\ startswith "Screenshot " msg = true)
    <-> exists c,
          In c (screenshots session_data)
          /\ ae_exists w (file c) = true
          /\ ((ae_size w (file c) < 1000 /\ msg = small_issue c)
              \/ (20000000 < ae_size w (file c) /\ msg = large_issue c)).
Proof.
  intros Hrun msg. rewrite (analyze_session_returns _ _ _ _ _ Hrun).
  unfold analysis_summary. cbn [an_issues_detected].
  rewrite <- screenshot_issues_in, !in_app_iff. split.
  - intros [[Hin | [Hin | [Hin | Hin]]] Hpre]; [| | |exact Hin].
    + destruct (List.length (screenshots session_data) =? 0)%nat;
        [destruct Hin as [<-|[]]; discriminate Hpre | destruct Hin].
    + destruct (Status_eqb (status session_data) error);
        [destruct Hin as [<-|[]]; discriminate Hpre | destruct Hin].
    + destruct (contains "error" (lower (emulator_output session_data)));
        [destruct Hin as [<-|[]]; discriminate Hpre | destruct Hin].
  - intros Hin. split; [now repeat right|].
    pose proof (screenshot_issues_prefix w (screenshots session_data))
      as Hshot.
    rewrite Forall_forall in Hshot. exact (Hshot _ Hin).
Qed.

Lemma capture_sizes_are_checked_witness :
  exists a st,
    analyze_session demo_tool odd_files odd_session = (Returns a, st)
    /\ an_issues_detected a
       = ["Screenshot 1 is unusually small";
          "Screenshot 3 is unusually large"]
    /\ (In "Screenshot 3 is unusually large" (an_issues_detected a)
        /\ startswith "Screenshot " "Screenshot 3 is unusually large"
           = true).
Proof.
  eexists. eexists. split; [vm_compute; reflexivity|].
  split; [reflexivity|].
  apply (capture_sizes_are_checked demo_tool odd_files odd_session _ _
           eq_refl "Screenshot 3 is unusually large").
  exists (mkCapture 5 "huge.png" 3).
  split; [right; right; left; reflexivity|].
  split; [reflexivity|]. right. split; [reflexivity | reflexivity].
Defined.

(** X16.  A Session with at least one capture, a status other than
    error, no "error" in its stdout text, and capture files that are
    either missing or between 1000 and 20,000,000 bytes gets an analysis
    with no issue and no recommendation. *)
Theorem clean_session_has_no_findings (self : X16DevTool)
    (w : AnalysisEnv) (session_data : Session) (a : Analysis)
    (st : St Analysis) :
  analyze_session self w session_data = (Returns a, st) ->
  screenshots session_data <> [] ->
  status session_data <> error ->
  contains "error" (lower (emulator_output session_data)) = false ->
  Forall (fun c => ae_exists w (file c) = false
                   \/ 1000 <= ae_size w (file c) <= 20000000)
         (screenshots session_data) ->
  an_issues_detected a = [] /\ an_recommendations a = [].
Proof.
  intros Hrun Hshots Hstatus Hout Hfiles.
  rewrite (analyze_session_returns _ _ _ _ _ Hrun).
  unfold analysis_summary. cbn [an_issues_detected an_recommendations].
  rewrite Hout.
  assert (Hlen : (List.length (screenshots session_data) =? 0)%nat = false).
  { destruct (screenshots session_data); [now elim Hshots | reflexivity]. }
  assert (Heqb : Status_eqb (status session_data) error = false).
  { destruct (status session_data); try reflexivity. now elim Hstatus. }
  rewrite Hlen, Heqb. cbn [app]. split; [|reflexivity].
  destruct (screenshot_issues w (screenshots session_data)) as [|msg rest]
    eqn:Hissues; [reflexivity|].
  assert (Hin : In msg (screenshot_issues w (screenshots session_data))).
  { rewrite Hissues. now left. }
  apply screenshot_issues_in in Hin.
  destruct Hin as (c & Hc & Hex & Hsize).
  rewrite Forall_forall in Hfiles. specialize (Hfiles c Hc).
  destruct Hfiles as [Hgone | Hrange]; [congruence|].
  destruct Hsize as [[Hlt _] | [Hgt _]]; lia.
Qed.

Lemma clean_session_has_no_findings_witness :
  exists a st,
    analyze_session demo_tool odd_files clean_session = (Returns a, st)
    /\ an_issues_detected a = [] /\ an_recommendations a = [].
Proof.
  eexists. eexists. split; [vm_compute; reflexivity|].
  eapply (clean_session_has_no_findings demo_tool odd_files clean_session).
  - vm_compute; reflexivity.
  - discriminate.
  - discriminate.
  - reflexivity.
  - constructor; [right; cbn; lia|].
    constructor; [left; reflexivity | constructor].
Defined.


(** X18.  The "Emulator reported errors" issue is raised exactly when
    some stretch of the captured stdout text reads "error" once lowered,
    in whatever mix of upper and lower case it was printed. *)
Theorem error_marker_in_any_case (self : X16DevTool) (w : AnalysisEnv)
    (session_data : Session) (a : Analysis) (st : St Analysis) :
  analyze_session self w session_data = (Returns a, st) ->
  (In "Emulator reported errors" (an_issues_detected a)
   <-> exists before marker after,
         emulator_output session_data = before ++ marker ++ after
         /\ lower marker = "error").
Proof.
  intros Hrun. rewrite <- contains_lower_spec.
  rewrite (analyze_session_returns _ _ _ _ _ Hrun).
  unfold analysis_summary. cbn [an_issues_detected].
  rewrite !in_app_iff. split.
  - intros [Hin | [Hin | [Hin | Hin]]].
    + destruct (List.length (screenshots session_data) =? 0)%nat;
        [destruct Hin as [Hin|[]]; discriminate Hin | destruct Hin].
    + destruct (Status_eqb (status session_data) error);
        [destruct Hin as [Hin|[]]; discriminate Hin | destruct Hin].
    + destruct (contains "error" (lower (emulator_output session_data)));
        [reflexivity | destruct Hin].
    + pose proof (screenshot_issues_prefix w (screenshots session_data))
        as Hpre.
      rewrite Forall_forall in Hpre. specialize (Hpre _ Hin).
      discriminate Hpre.
  - intros ->. right. right. left. left. reflexivity.
Qed.

Lemma error_marker_in_any_case_witness :
  exists a st,
    analyze_session demo_tool quiet_files stdout_error_session
      = (Returns a, st)
    /\ emulator_output stdout_error_session
       = "Fatal " ++ "ERROR" ++ ": cannot open ROM"
    /\ In "Emulator reported errors" (an_issues_detected a).
Proof.
  eexists. eexists. split; [vm_compute; reflexivity|].
  split; [reflexivity|].
  apply (error_marker_in_any_case demo_tool quiet_files
           stdout_error_session _ _ eq_refl).
  exists "Fatal ", "ERROR", ": cannot open ROM".
  split; reflexivity.
Defined.

(** * [run_full_diagnostic] *)

(** What [build_project] does when the log can be written. *)
Lemma build_project_eq (self : X16DevTool) (w : BuildEnv) (game : string) :
  be_write w = Returns tt ->
  (forall e, be_make w = Raises e -> is_Exception e = true) ->
  exists b,
    build_project self w game
      = (Returns (bl_success b),
         mkSt b [EvMake game; EvWrite (build_log_file self) (ABuild b)])
    /\ bl_success b = match be_make w with
                      | Returns (rc, _, _) => rc =? 0
                      | Raises _ => false
                      end.
Proof.
  intros Hwrite Hmake.
  unfold build_project, build_project_body. run_monad. rewrite Hwrite.
  destruct (be_make w) as [[[rc out] err]|e];
    [|specialize (Hmake e eq_refl); destruct e; try discriminate Hmake];
    cbv beta iota delta [is_TimeoutExpired is_Exception];
    eexists; (split; [reflexivity|]); reflexivity.
Qed.

(** X19.  When the build does not succeed (make ends with a non-zero
    exit code, times out or cannot be invoked) the diagnostic stops
    there: it returns False, and its only external calls are make and
    the write of the build log; the emulator is not started and nothing
    is analysed. *)
Theorem failed_build_stops_the_diagnostic (self : X16DevTool)
    (wb : BuildEnv) (wr : RunEnv) (wa : AnalysisEnv) (game : string)
    (dur : Z) :
  be_write wb = Returns tt ->
  match be_make wb with
  | Returns (rc, _, _) => rc <> 0
  | Raises e => is_Exception e = true
  end ->
  exists b,
    run_full_diagnostic self wb wr wa game dur
      = (Returns false,
         [EvMake game; EvWrite (build_log_file self) (ABuild b)])
    /\ bl_success b = false.
Proof.
  intros Hwrite Hmake.
  destruct (build_project_eq self wb game Hwrite) as (b & Hrun & Hok).
  { intros e He. now rewrite He in Hmake. }
  assert (Hfalse : bl_success b = false).
  { rewrite Hok. destruct (be_make wb) as [[[rc out] err]|e];
      [now apply Z.eqb_neq | reflexivity]. }
  exists b. split; [|exact Hfalse].
  unfold run_full_diagnostic. rewrite Hrun, Hfalse. reflexivity.
Qed.

Lemma failed_build_stops_the_diagnostic_witness :
  exists b,
    run_full_diagnostic demo_tool make_fails calm_world quiet_files
      "pacman" 10
      = (Returns false,
         [EvMake "pacman"; EvWrite (build_log_file demo_tool) (ABuild b)])
    /\ bl_success b = false.
Proof.
  apply (failed_build_stops_the_diagnostic demo_tool make_fails calm_world
           quiet_files "pacman" 10).
  - reflexivity.
  - cbn. discriminate.
Defined.

(** X20.  When the build succeeds, the diagnostic returns True whatever
    the emulator run came to, be it program_not_found or error, as long
    as the run returns and the analysis can be written.  It runs
    "<game>.prg", analyses the Session that run returned, and writes the
    analysis last. *)
Theorem diagnostic_succeeds_with_the_build (self : X16DevTool)
    (wb : BuildEnv) (wr : RunEnv) (wa : AnalysisEnv) (game : string)
    (dur : Z) (out err : string) (s : Session) (st : St Session) :
  be_make wb = Returns (0, out, err) ->
  be_write wb = Returns tt ->
  run_emulator_with_capture self wr (game ++ ".prg") dur = (Returns s, st) ->
  ae_write wa = Returns tt ->
  exists b a,
    run_full_diagnostic self wb wr wa game dur
      = (Returns true,
         ([EvMake game; EvWrite (build_log_file self) (ABuild b)]
            ++ trace st
            ++ [EvWrite (analysis_file self) (AAnalysis a)])%list)
    /\ bl_success b = true
    /\ an_session_id a = tool_session_id self
    /\ an_screenshots_captured a = List.length (screenshots s).
Proof.
  intros Hmake Hwrite Hrun Hawrite.
  destruct (build_project_eq self wb game Hwrite) as (b & Hbuild & Hok).
  { intros e He. rewrite Hmake in He. discriminate He. }
  rewrite Hmake in Hok. cbn in Hok.
  exists b, (analysis_summary wa s).
  unfold run_full_diagnostic.
  rewrite Hbuild, Hok, Hrun, analyze_session_eq, Hawrite. cbn [trace].
  split; [reflexivity|]. split; [reflexivity|].
  split; [|reflexivity].
  cbn [analysis_summary an_session_id].
  revert Hrun. unfold run_emulator_with_capture.
  run_cases; intros H; run_result H; reflexivity.
Qed.

Lemma diagnostic_succeeds_with_the_build_witness :
  exists s st b a,
    run_emulator_with_capture demo_tool no_emulator_world "pacman.prg" 10
      = (Returns s, st)
    /\ status s = error
    /\ run_full_diagnostic demo_tool make_ok no_emulator_world quiet_files
         "pacman" 10
       = (Returns true,
          ([EvMake "pacman"; EvWrite (build_log_file demo_tool) (ABuild b)]
             ++ trace st
             ++ [EvWrite (analysis_file demo_tool) (AAnalysis a)])%list)
    /\ bl_success b = true
    /\ an_session_id a = tool_session_id demo_tool
    /\ an_screenshots_captured a = List.length (screenshots s).
Proof.
  eexists. eexists.
  assert (Hrun : run_emulator_with_capture demo_tool no_emulator_world
                   ("pacman" ++ ".prg") 10 = _)
    by (vm_compute; reflexivity).
  destruct (diagnostic_succeeds_with_the_build demo_tool make_ok
              no_emulator_world quiet_files "pacman" 10 _ _ _ _
              eq_refl eq_refl Hrun eq_refl) as (b & a & H).
  exists b, a. split; [exact Hrun|]. split; [reflexivity | exact H].
Defined.

(** X21.  With a successful build and the program file missing, the
    diagnostic still returns True: after the build its external calls
    are the existence test and the write of the analysis, which consists
    of the "No screenshots captured" issue and its recommendation.  The
    session file that the summary goes on to list is not written. *)
Theorem diagnostic_without_program (self : X16DevTool) (wb : BuildEnv)
    (wr : RunEnv) (wa : AnalysisEnv) (game : string) (dur : Z)
    (out err : string) :
  be_make wb = Returns (0, out, err) ->
  be_write wb = Returns tt ->
  re_program_exists wr = false ->
  ae_write wa = Returns tt ->
  exists b a,
    run_full_diagnostic self wb wr wa game dur
      = (Returns true,
         [EvMake game;
          EvWrite (build_log_file self) (ABuild b);
          EvExists (program_path self (game ++ ".prg"));
          EvWrite (analysis_file self) (AAnalysis a)])
    /\ an_issues_detected a = ["No screenshots captured"]
    /\ an_recommendations a = ["Check screencapture permissions"]
    /\ persisted_sessions (snd (run_full_diagnostic self wb wr wa game dur))
       = [].
Proof.
  intros Hmake Hwrite Hprog Hawrite.
  destruct (build_project_eq self wb game Hwrite) as (b & Hbuild & Hok).
  { intros e He. rewrite Hmake in He. discriminate He. }
  rewrite Hmake in Hok. cbn in Hok.
  assert (Hrun : exists s,
             run_emulator_with_capture self wr (game ++ ".prg") dur
               = (Returns s,
                  mkSt s [EvExists (program_path self (game ++ ".prg"))])
             /\ screenshots s = [] /\ status s = program_not_found
             /\ emulator_output s = "").
  { run_open. rewrite Hprog. cbv beta iota delta [negb].
    eexists. split; [reflexivity|]. repeat split. }
  destruct Hrun as (s & Hrun & Hshots & Hstatus & Hout).
  exists b, (analysis_summary wa s).
  unfold run_full_diagnostic.
  rewrite Hbuild, Hok, Hrun, analyze_session_eq, Hawrite. cbn [trace app snd].
  split; [reflexivity|].
  unfold analysis_summary. cbn [an_issues_detected an_recommendations].
  rewrite Hshots, Hstatus, Hout. repeat split.
Qed.

Lemma diagnostic_without_program_witness :
  exists b a,
    run_full_diagnostic demo_tool make_ok not_found_world quiet_files
      "pacman" 10
      = (Returns true,
         [EvMake "pacman";
          EvWrite (build_log_file demo_tool) (ABuild b);
          EvExists (program_path demo_tool "pacman.prg");
          EvWrite (analysis_file demo_tool) (AAnalysis a)])
    /\ an_issues_detected a = ["No screenshots captured"]
    /\ an_recommendations a = ["Check screencapture permissions"]
    /\ persisted_sessions
         (snd (run_full_diagnostic demo_tool make_ok not_found_world
                 quiet_files "pacman" 10)) = [].
Proof.
  apply (diagnostic_without_program demo_tool make_ok not_found_world
           quiet_files "pacman" 10 "cl65 ... ok" ""); reflexivity.
Defined.

(** * Further properties of [X16DevLoop] *)

(** [stop_emulator] in one equation. *)
Lemma stop_emulator_eq
    (answers : outcome unit * outcome unit * outcome unit)
    (s : St X16DevLoop.Loop) :
  X16DevLoop.stop_emulator answers s
  = (stop_emulator_outcome (X16DevLoop.emulator_process (data s)) answers,
     mkSt (data s)
          (trace s ++ stop_emulator_calls
                        (X16DevLoop.emulator_process (data s)) answers)).
Proof.
  destruct answers as [[terminate wait] killall]. destruct s as [self tr].
  unfold X16DevLoop.stop_emulator, stop_emulator_outcome,
         stop_emulator_calls.
  run_monad.
  destruct (X16DevLoop.emulator_process self).
  - destruct terminate as [u|e]; [destruct wait as [u'|e]|];
      [destruct killall as [u''|e] | |];
      try destruct (is_Exception e);
      cbv beta iota; rewrite <- ?app_assoc; try reflexivity.
    destruct u''. reflexivity.
  - destruct killall as [u|e]; try destruct (is_Exception e);
      cbv beta iota; try reflexivity.
    destruct u. reflexivity.
Qed.

(** X22.  When a process object is stored and terminate or the wait that
    follows it raises an Exception (the emulator did not exit within the
    five seconds, say), [stop_emulator] swallows the exception and
    returns without calling killall: the emulator is left to itself. *)
Theorem stop_emulator_gives_up_quietly
    (terminate wait killall : outcome unit) (s : St X16DevLoop.Loop)
    (e : exn) :
  X16DevLoop.emulator_process (data s) = true ->
  is_Exception e = true ->
  terminate = Raises e \/ ((exists u, terminate = Returns u)
                           /\ wait = Raises e) ->
  exists calls,
    X16DevLoop.stop_emulator (terminate, wait, killall) s
      = (Returns tt, mkSt (data s) (trace s ++ calls))
    /\ In EvTerminate calls
    /\ ~ In EvKillall calls.
Proof.
  intros Hproc He Hraise. rewrite stop_emulator_eq, Hproc.
  unfold stop_emulator_outcome, stop_emulator_calls.
  destruct Hraise as [-> | [[u ->] ->]]; rewrite He;
    eexists; (split; [reflexivity|]);
    (split; [now left|]); cbn; intros H;
    repeat (destruct H as [H|H]; [discriminate H|]); exact H.
Qed.

Lemma stop_emulator_gives_up_quietly_witness :
  exists calls,
    X16DevLoop.stop_emulator deaf_emulator
      (mkSt (X16DevLoop.mkLoop true 0) [])
      = (Returns tt, mkSt (X16DevLoop.mkLoop true 0) ([] ++ calls))
    /\ In EvTerminate calls
    /\ ~ In EvKillall calls.
Proof.
  apply (stop_emulator_gives_up_quietly
           (Returns tt)
           (Raises (TimeoutExpired "timed out after 5 seconds"))
           (Returns tt) (mkSt (X16DevLoop.mkLoop true 0) [])
           (TimeoutExpired "timed out after 5 seconds")).
  - reflexivity.
  - reflexivity.
  - right. split; [now exists tt | reflexivity].
Defined.

Lemma try_except_interrupt_state {D} (body : M D unit) (s : St D) :
  snd (try_except body [(is_KeyboardInterrupt, fun _ => ret tt)] s)
  = snd (body s)
  /\ fst (try_except body [(is_KeyboardInterrupt, fun _ => ret tt)] s)
     <> Raises KeyboardInterrupt.
Proof.
  unfold try_except. destruct (body s) as [[u|e] s'];
    cbn [dispatch fst snd]; [split; [reflexivity | discriminate]|].
  destruct e; cbn; split; try reflexivity; discriminate.
Qed.

(** [run_loop] as the loop, then the clean-up. *)
Lemma run_loop_eq (w : X16DevLoop.LoopEnv) (max_iterations : nat) :
  X16DevLoop.run_loop w max_iterations =
  let '(r, s') :=
    try_except
      (X16DevLoop.while_loop w max_iterations (S (max_iterations - 0)))
      [(is_KeyboardInterrupt, fun _ => ret tt)]
      (mkSt (X16DevLoop.mkLoop false 0) []) in
  (match stop_emulator_outcome (X16DevLoop.emulator_process (data s'))
                               (X16DevLoop.dl_cleanup w) with
   | Returns _ => r
   | Raises e => Raises e
   end,
   mkSt (data s')
        (trace s' ++ stop_emulator_calls
                       (X16DevLoop.emulator_process (data s'))
                       (X16DevLoop.dl_cleanup w))).
Proof.
  unfold X16DevLoop.run_loop, X16DevLoop.run_loop_body, exec.
  unfold bind at 1, get at 1. cbv beta iota. unfold try_finally.
  cbn [data X16DevLoop.iteration].
  destruct (try_except _ _ _) as [r s'].
  unfold X16DevLoop.cleanup. rewrite stop_emulator_eq.
  now destruct (stop_emulator_outcome _ _).
Qed.

(** X23.  Every run of [run_loop], however it ends, finishes with the
    calls of the clean-up and nothing after them: terminate, wait and
    killall as far as they answer when an emulator was started, killall
    alone when none was. *)
Theorem run_loop_ends_in_cleanup (w : X16DevLoop.LoopEnv)
    (max_iterations : nat) :
  exists before calls,
    trace (snd (X16DevLoop.run_loop w max_iterations))
    = (before ++ calls)%list
    /\ calls
       = stop_emulator_calls
           (X16DevLoop.emulator_process
              (data (snd (X16DevLoop.run_loop w max_iterations))))
           (X16DevLoop.dl_cleanup w)
    /\ calls <> []
    /\ Forall X16DevLoop.stop_event calls.
Proof.
  rewrite run_loop_eq. destruct (try_except _ _ _) as [r s'].
  cbn [snd data trace]. eexists. eexists. split; [reflexivity|].
  split; [reflexivity|].
  unfold stop_emulator_calls.
  destruct (X16DevLoop.dl_cleanup w) as [[terminate wait] killall].
  destruct (X16DevLoop.emulator_process (data s'));
    [destruct terminate; [destruct wait|]|];
    (split; [discriminate | repeat constructor]).
Qed.

(** X24.  [run_loop] swallows Ctrl-C: it raises KeyboardInterrupt only
    when the interrupt arrived during the clean-up itself, in one of
    its three calls. *)
Theorem run_loop_swallows_keyboard_interrupt (w : X16DevLoop.LoopEnv)
    (max_iterations : nat) :
  fst (X16DevLoop.run_loop w max_iterations) = Raises KeyboardInterrupt ->
  let '(terminate, wait, killall) := X16DevLoop.dl_cleanup w in
  terminate = Raises KeyboardInterrupt
  \/ wait = Raises KeyboardInterrupt
  \/ killall = Raises KeyboardInterrupt.
Proof.
  rewrite run_loop_eq.
  match goal with
  | |- context [try_except ?body ?clauses ?s] =>
      destruct (try_except_interrupt_state body s) as [_ Hnot];
      destruct (try_except body clauses s) as [r s']
  end.
  cbn [fst] in Hnot |- *. unfold stop_emulator_outcome.
  destruct (X16DevLoop.dl_cleanup w) as [[terminate wait] killall].
  destruct (X16DevLoop.emulator_process (data s'));
    destruct terminate as [?|[]]; destruct wait as [?|[]];
    destruct killall as [?|[]]; cbn [is_Exception];
    intros H; try discriminate H; try (now elim Hnot); auto.
Qed.

Lemma run_loop_swallows_keyboard_interrupt_witness :
  fst (X16DevLoop.run_loop interrupted_cleanup_loop 3)
    = Raises KeyboardInterrupt
  /\ (Returns tt = Raises KeyboardInterrupt
      \/ Returns tt = Raises KeyboardInterrupt
      \/ @Raises unit KeyboardInterrupt = Raises KeyboardInterrupt).
Proof.
  split; [vm_compute; reflexivity|].
  apply (run_loop_swallows_keyboard_interrupt interrupted_cleanup_loop 3).
  vm_compute; reflexivity.
Defined.

(** Ctrl-C inside a cycle is swallowed; the [sys.exit(0)] of the signal
    handler is not, but the clean-up still runs before it leaves. *)
Example interrupts_inside_a_cycle :
  fst (X16DevLoop.run_loop X16DevLoop.interrupted_loop 3) = Returns tt
  /\ X16DevLoop.run_loop exiting_loop 3
     = (Raises SystemExit,
        mkSt (X16DevLoop.mkLoop true 0)
             [EvMakeClean; EvMakeAll; EvKillall; EvSleep 1;
              EvPopen ["x16emu"; "-prg"; "pacman.prg"; "-run"];
              EvSleep 3; EvSleep 10; EvTerminate; EvWait 5; EvKillall]).
Proof. vm_compute. split; reflexivity. Qed.

Lemma builds_app (a b : list event) :
  builds (a ++ b) = (builds a + builds b)%nat.
Proof.
  induction a as [|ev a IH]; [reflexivity|].
  destruct ev; cbn; try exact IH. now rewrite IH.
Qed.

(** One cycle runs make at most once, and moves [self.iteration] only
    when it reports success. *)
Lemma cycle_effect (w : X16DevLoop.LoopEnv) (s s' : St X16DevLoop.Loop)
    (o : outcome bool) :
  X16DevLoop.run_development_cycle w s = (o, s') ->
  (builds (trace s') <= builds (trace s) + 1)%nat
  /\ X16DevLoop.iteration (data s')
     = match o with
       | Returns true => S (X16DevLoop.iteration (data s))
       | _ => X16DevLoop.iteration (data s)
       end.
Proof.
  destruct s as [self tr].
  unfold X16DevLoop.run_development_cycle, X16DevLoop.build_project,
         X16DevLoop.start_emulator, X16DevLoop.take_screenshot,
         X16DevLoop.log_iteration, X16DevLoop.stop_emulator.
  run_monad.
  change (10 <? 0) with false; change (3 <? 0) with false;
    change (1 <? 0) with false; cbv beta iota.
  destruct (X16DevLoop.dl_stop w (X16DevLoop.iteration self))
    as [[terminate wait] killall].
  repeat (lazymatch goal with
          | |- ?l = _ -> _ =>
              let x := pending l in
              lazymatch x with
              | (_, _) => fail
              | match ?y with nil => _ | cons _ _ => _ end => destruct y
              | match ?y with nil => _ | cons _ _ => _ end _ => destruct y
              | _ => destruct x
              end
          end;
          cbv beta iota delta [fst snd data trace negb
                               X16DevLoop.set_emulator_process
                               X16DevLoop.emulator_process]).
  all: intros H; apply pair_equal_spec in H; destruct H as [<- <-];
    cbn [data trace X16DevLoop.iteration X16DevLoop.next_iteration];
    rewrite ?builds_app; cbn [builds Nat.add];
    (split; [lia | try reflexivity; apply Nat.add_1_r]).
Qed.

Lemma while_loop_bounded (w : X16DevLoop.LoopEnv) (max_iterations : nat) :
  forall (fuel : nat) (s s' : St X16DevLoop.Loop) (o : outcome unit),
    X16DevLoop.while_loop w max_iterations fuel s = (o, s') ->
    (X16DevLoop.iteration (data s) <= max_iterations)%nat ->
    (X16DevLoop.iteration (data s) <= X16DevLoop.iteration (data s')
     <= max_iterations)%nat
    /\ (builds (trace s') + X16DevLoop.iteration (data s)
        <= builds (trace s) + max_iterations)%nat.
Proof.
  induction fuel as [|fuel IH]; intros s s' o Hrun Hle.
  - cbn in Hrun. unfold ret in Hrun. inversion Hrun; subst. lia.
  - rewrite while_loop_round in Hrun.
    destruct (Nat.ltb_spec (X16DevLoop.iteration (data s)) max_iterations)
      as [Hlt|Hge]; [|inversion Hrun; subst; lia].
    destruct (X16DevLoop.run_development_cycle w s) as [oc s1] eqn:Hcycle.
    destruct (cycle_effect w s s1 oc Hcycle) as [Hb Hit].
    destruct oc as [[|]|e]; try (inversion Hrun; subst; lia).
    destruct ((if (X16DevLoop.iteration (data s1) <? max_iterations)%nat
               then py_sleep 5
                      (X16DevLoop.dl_sleep_5 w
                         (X16DevLoop.iteration (data s1)))
               else ret tt) s1) as [os s2] eqn:Hsleep.
    assert (Hs2 : data s2 = data s1 /\ builds (trace s2) = builds (trace s1)).
    { destruct (X16DevLoop.iteration (data s1) <? max_iterations)%nat.
      - unfold py_sleep in Hsleep. change (5 <? 0) with false in Hsleep.
        run_monad. inversion Hsleep. cbn [data trace].
        rewrite builds_app. cbn. split; [reflexivity | lia].
      - unfold ret in Hsleep. inversion Hsleep. now split. }
    destruct Hs2 as [Hdata Hbuilds].
    destruct os as [u|e].
    + apply IH in Hrun; [|rewrite Hdata, Hit; lia].
      rewrite Hdata, Hbuilds, Hit in Hrun. lia.
    + inversion Hrun; subst. rewrite Hdata, Hbuilds, Hit. lia.
Qed.

(** X25.  [run_loop(max_iterations)] runs make at most [max_iterations]
    times and leaves [self.iteration], the number of completed cycles, at
    most at [max_iterations], whatever the outside world does. *)
Theorem run_loop_is_bounded (w : X16DevLoop.LoopEnv)
    (max_iterations : nat) :
  (builds (trace (snd (X16DevLoop.run_loop w max_iterations)))
   <= max_iterations)%nat
  /\ (X16DevLoop.iteration (data (snd (X16DevLoop.run_loop w max_iterations)))
      <= max_iterations)%nat.
Proof.
  rewrite run_loop_eq.
  match goal with
  | |- context [try_except ?body ?clauses ?s] =>
      destruct (try_except_interrupt_state body s) as [Hstate _];
      destruct (try_except body clauses s) as [r s'];
      destruct (body s) as [o s1] eqn:Hloop
  end.
  cbn [snd] in Hstate. subst s1. cbn [snd data trace].
  apply while_loop_bounded in Hloop; [|cbn; lia].
  cbn [data trace builds X16DevLoop.iteration] in Hloop.
  rewrite builds_app.
  assert (Hnone : builds (stop_emulator_calls
                            (X16DevLoop.emulator_process (data s'))
                            (X16DevLoop.dl_cleanup w)) = 0%nat).
  { unfold stop_emulator_calls.
    destruct (X16DevLoop.dl_cleanup w) as [[terminate wait] killall].
    destruct (X16DevLoop.emulator_process (data s'));
      [destruct terminate; [destruct wait|]|]; reflexivity. }
  rewrite Hnone. lia.
Qed.

(** Three cycles of the steady world. *)
Example three_steady_cycles :
  let r := X16DevLoop.run_loop steady_loop 3 in
  fst r = Returns tt
  /\ builds (trace (snd r)) = 3%nat
  /\ X16DevLoop.iteration (data (snd r)) = 3%nat.
Proof. vm_compute. repeat split. Qed.

(** X26.  When make fails in the first cycle the loop stops at once: the
    emulator is never started and no cycle is counted, yet the clean-up
    still issues killall, which stops whatever x16emu is running. *)
Theorem failed_build_ends_the_loop (w : X16DevLoop.LoopEnv)
    (max_iterations : nat) (rc : Z) (err : string) :
  (0 < max_iterations)%nat ->
  X16DevLoop.dl_make_clean w 0%nat = Returns tt ->
  X16DevLoop.dl_make w 0%nat = Returns (rc, err) ->
  rc <> 0 ->
  snd (X16DevLoop.run_loop w max_iterations)
  = mkSt (X16DevLoop.mkLoop false 0) [EvMakeClean; EvMakeAll; EvKillall].
Proof.
  intros Hmax Hclean Hmake Hrc. rewrite run_loop_eq.
  unfold try_except. rewrite while_loop_round.
  cbn [data X16DevLoop.iteration].
  destruct (Nat.ltb_spec 0 max_iterations) as [_|Hge]; [|lia].
  unfold X16DevLoop.run_development_cycle, X16DevLoop.build_project.
  run_monad. cbv beta iota delta [X16DevLoop.iteration].
  rewrite Hclean. cbv beta iota. rewrite Hmake. cbv beta iota.
  destruct (Z.eqb_spec rc 0) as [Heq|_]; [now elim Hrc|].
  cbv beta iota delta [negb X16DevLoop.emulator_process
                       X16DevLoop.iteration].
  unfold stop_emulator_calls.
  destruct (X16DevLoop.dl_cleanup w) as [[terminate wait] killall].
  reflexivity.
Qed.

Lemma failed_build_ends_the_loop_witness :
  snd (X16DevLoop.run_loop broken_build_loop 3)
  = mkSt (X16DevLoop.mkLoop false 0) [EvMakeClean; EvMakeAll; EvKillall].
Proof.
  apply (failed_build_ends_the_loop broken_build_loop 3 2
           "Error: Symbol undefined").
  - lia.
  - reflexivity.
  - reflexivity.
  - discriminate.
Defined.

Lemma endswith_spec (suffix s : string) :
  X16DevLoop.endswith suffix s = true <-> exists stem, s = stem ++ suffix.
Proof.
  induction s as [|c s IH]; cbn [X16DevLoop.endswith];
    rewrite orb_true_iff, String.eqb_eq.
  - split.
    + intros [<- | H]; [now exists "" | discriminate H].
    + intros [stem H]. left. destruct stem; [exact H | discriminate H].
  - rewrite IH. split.
    + intros [<- | [stem ->]]; [now exists "" | now exists (String c stem)].
    + intros [stem H]. destruct stem as [|c' stem].
      * left. exact H.
      * right. cbn in H. inversion H. now exists stem.
Qed.

Lemma max_by_spec (key : string -> Z) (l : list string) :
  forall best,
    In (X16DevLoop.max_by key best l) (best :: l)
    /\ forall x, In x (best :: l) ->
                 key x <= key (X16DevLoop.max_by key best l).
Proof.
  induction l as [|y l IH]; intros best; cbn [X16DevLoop.max_by].
  - split; [now left|]. intros x [Hx | []]. subst x. lia.
  - destruct (IH (if key best <? key y then y else best)) as [Hin Hmax].
    split.
    + destruct Hin as [Hin | Hin]; [|now right; right].
      rewrite <- Hin. destruct (key best <? key y); [right; now left|now left].
    + intros x [Hx | [Hx | Hx]].
      * subst x. etransitivity; [|apply Hmax; now left].
        destruct (Z.ltb_spec (key best) (key y)); lia.
      * subst x. etransitivity; [|apply Hmax; now left].
        destruct (Z.ltb_spec (key best) (key y)); lia.
      * apply Hmax. now right.
Qed.

(** X27.  After its one-second wait [take_screenshot] looks at the files
    of the project directory whose names end in ".png".  If there is
    none it returns None and renames nothing.  Otherwise it picks one
    created latest, renames it to iteration_<NNN>_<name> in the same
    directory, NNN being the iteration number padded to three digits,
    and returns the new name. *)
Theorem take_screenshot_renames_the_newest (w : X16DevLoop.LoopEnv)
    (s : St X16DevLoop.Loop) (files : list string) :
  X16DevLoop.dl_sleep_shot w (X16DevLoop.iteration (data s)) = Returns tt ->
  X16DevLoop.dl_listdir w (X16DevLoop.iteration (data s)) = Returns files ->
  ((forall f, In f files -> X16DevLoop.endswith ".png" f = false) ->
   X16DevLoop.take_screenshot w s
   = (Returns None,
      mkSt (data s)
           (trace s ++ [EvSleep 1; EvListdir X16DevLoop.project_dir])))
  /\ ((exists f, In f files /\ X16DevLoop.endswith ".png" f = true) ->
      exists newest,
        In newest files
        /\ (exists stem, newest = stem ++ ".png")
        /\ (forall g, In g files -> X16DevLoop.endswith ".png" g = true ->
                      X16DevLoop.dl_ctime w g <= X16DevLoop.dl_ctime w newest)
        /\ X16DevLoop.take_screenshot w s
           = (match X16DevLoop.dl_rename w (X16DevLoop.iteration (data s))
              with
              | Returns _ =>
                  Returns (Some ("iteration_"
                                   ++ X16DevLoop.pad3
                                        (X16DevLoop.iteration (data s))
                                   ++ "_" ++ newest))
              | Raises e => Raises e
              end,
              mkSt (data s)
                   (trace s
                      ++ [EvSleep 1; EvListdir X16DevLoop.project_dir;
                          EvRename
                            (path_join X16DevLoop.project_dir newest)
                            (path_join X16DevLoop.project_dir
                               ("iteration_"
                                  ++ X16DevLoop.pad3
                                       (X16DevLoop.iteration (data s))
                                  ++ "_" ++ newest))]))).
Proof.
  intros Hsleep Hlist. destruct s as [self tr]. cbn [data trace] in *.
  unfold X16DevLoop.take_screenshot. run_monad.
  change (1 <? 0) with false. cbv beta iota.
  rewrite Hsleep. cbv beta iota. rewrite Hlist. cbv beta iota.
  split.
  - intros Hnone.
    destruct (filter (X16DevLoop.endswith ".png") files) as [|f rest]
      eqn:Hpngs.
    + now rewrite <- app_assoc.
    + assert (Hin : In f (filter (X16DevLoop.endswith ".png") files))
        by (rewrite Hpngs; now left).
      apply filter_In in Hin. destruct Hin as [Hin Hpng].
      rewrite (Hnone f Hin) in Hpng. discriminate Hpng.
  - intros (f0 & Hin0 & Hpng0).
    destruct (filter (X16DevLoop.endswith ".png") files) as [|f rest]
      eqn:Hpngs.
    + assert (Hin : In f0 (filter (X16DevLoop.endswith ".png") files))
        by (apply filter_In; now split).
      rewrite Hpngs in Hin. destruct Hin.
    + destruct (max_by_spec (X16DevLoop.dl_ctime w) rest f) as [Hin Hmax].
      set (newest := X16DevLoop.max_by (X16DevLoop.dl_ctime w) f rest) in *.
      rewrite <- Hpngs in Hin, Hmax.
      apply filter_In in Hin. destruct Hin as [Hin Hpng].
      exists newest. split; [exact Hin|].
      split; [now apply endswith_spec|].
      split.
      * intros g Hg Hgpng. apply Hmax. apply filter_In. now split.
      * destruct (X16DevLoop.dl_rename w (X16DevLoop.iteration self));
          cbv beta iota; rewrite <- !app_assoc; reflexivity.
Qed.

Lemma take_screenshot_renames_the_newest_witness :
  exists newest,
    In newest ["old.png"; "notes.txt"; "new.png"]
    /\ (exists stem, newest = stem ++ ".png")
    /\ (forall g, In g ["old.png"; "notes.txt"; "new.png"] ->
                  X16DevLoop.endswith ".png" g = true ->
                  X16DevLoop.dl_ctime steady_loop g
                  <= X16DevLoop.dl_ctime steady_loop newest)
    /\ X16DevLoop.take_screenshot steady_loop
         (mkSt (X16DevLoop.mkLoop true 7) [])
       = (Returns (Some ("iteration_" ++ "007" ++ "_" ++ newest)),
          mkSt (X16DevLoop.mkLoop true 7)
               [EvSleep 1; EvListdir X16DevLoop.project_dir;
                EvRename
                  (path_join X16DevLoop.project_dir newest)
                  (path_join X16DevLoop.project_dir
                     ("iteration_" ++ "007" ++ "_" ++ newest))]).
Proof.
  destruct (take_screenshot_renames_the_newest steady_loop
              (mkSt (X16DevLoop.mkLoop true 7) [])
              ["old.png"; "notes.txt"; "new.png"] eq_refl eq_refl)
    as [_ Hsome].
  apply Hsome. exists "new.png". split; [right; right; now left|reflexivity].
Defined.

(** In the steady world the newer of the two screenshots is taken. *)
Example newest_screenshot_is_taken :
  fst (X16DevLoop.take_screenshot steady_loop
         (mkSt (X16DevLoop.mkLoop true 7) []))
  = Returns (Some "iteration_007_new.png").
Proof. vm_compute. reflexivity. Qed.
